(** * EvolvX client core: session lifecycle and derived-state computations

  A shallow embedding of the parts of the React Native front end that carry
  logic: [contexts/AuthContext.js] (session restore, login, register,
  logout, request interceptor), [HomeScreen.calcStreak],
  the search filter of [WorkoutScreen] and the two [calculateProgress]
  functions of [CreateWorkoutScreen]. *)

From Stdlib Require Import ZArith Lia List String Ascii Floats DecimalString.
From stdpp Require Import base list gmap strings.

Local Open Scope Z_scope.

(* ===================================================================== *)
(** * Part I. Definitions                                                *)
(* ===================================================================== *)

(** ** Data consumed by the screens *)

(** One entry of [workout.exercises]; only [name] is read by the code
  modelled here. *)
Record Exercise := mkExercise {
  ex_name : string
}.

(** A workout summary as returned by [GET /workouts].  [workout_date] holds
  the time value of [new Date(w.workout_date)]: milliseconds on the local
  clock (a fixed-offset zone, so that every calendar day lasts
  [MS_PER_DAY] milliseconds).  Unparseable dates are outside the model. *)
Record Workout := mkWorkout {
  workout_id   : Z;
  workout_name : string;
  workout_date : Z;
  exercises    : list Exercise
}.

(** ** HomeScreen.js: streak *)

Module Home.

Definition MS_PER_DAY : Z := 86400000.

(** [d.setHours(0,0,0,0)]: the local midnight that starts the day of [t]. *)
Definition setHours0 (t : Z) : Z := t - t mod MS_PER_DAY.

(** [cursor.setDate(cursor.getDate()-1)]: same time of day, one day back. *)
Definition prevDate (cursor : Z) : Z := cursor - MS_PER_DAY.

(** The comparator [(a,b) => new Date(b.workout_date) - new Date(a.workout_date)]. *)
Definition byDateDesc (a b : Workout) : Z := workout_date b - workout_date a.

(** [Array.prototype.sort] with a comparator: a stable sort.  [insertSorted]
    places [w], which precedes every element of [l] in the input, after
    exactly those elements the comparator puts strictly before it. *)
Fixpoint insertSorted (cmp : Workout -> Workout -> Z) (w : Workout)
         (l : list Workout) : list Workout :=
  match l with
  | [] => [w]
  | x :: xs => if 0 <? cmp w x then x :: insertSorted cmp w xs else w :: l
  end.

Definition sort (cmp : Workout -> Workout -> Z) (l : list Workout) : list Workout :=
  foldr (insertSorted cmp) [] l.

(** Loop state of [calcStreak]: the cursor day and the running count. *)
Record Cursor := mkCursor { cursor : Z; days : Z }.

(** The test-and-advance statement shared by the pre-check and the loop body:
    [if (d.getTime()===cursor.getTime()) { days++; cursor.setDate(cursor.getDate()-1); }] *)
Definition bump (d : Z) (st : Cursor) : Cursor :=
  if d =? cursor st then mkCursor (prevDate (cursor st)) (days st + 1) else st.

(** Body of [for (const w of sorted)]. *)
Definition visit (st : Cursor) (w : Workout) : Cursor :=
  bump (setHours0 (workout_date w)) st.

(** [calcStreak(list)], returning the value handed to [setStreak];
    [now] is the time value of [new Date()].  The sorted copy of a
    non-empty list is never empty ([HomeFacts.sort_length]), so the [[]]
    branch of the match on [sorted], where [sorted[0]] would be undefined,
    is not reached. *)
Definition calcStreak (now : Z) (list : list Workout) : Z :=
  if (length list =? 0)%nat then 0
  else
    let sorted := sort byDateDesc list in
    let today := setHours0 now in
    let start := mkCursor today 0 in
    match sorted with
    | [] => 0
    | w0 :: _ =>
        let first := setHours0 (workout_date w0) in
        let start := if first =? today
                     then mkCursor (prevDate (cursor start)) (days start + 1)
                     else start in
        days (fold_left visit sorted start)
    end.

(** Vocabulary for the properties of the streak. *)
Definition dayOf (w : Workout) : Z := setHours0 (workout_date w).
Definition hasEntryOn (day : Z) (l : list Workout) : Prop :=
  exists w, w ∈ l /\ dayOf w = day.
(** The calendar day [n] days before the day of [now]. *)
Definition daysAgo (now : Z) (n : Z) : Z := setHours0 now - n * MS_PER_DAY.
(** Executable form of [hasEntryOn]. *)
Definition entryOn (day : Z) (l : list Workout) : bool :=
  existsb (fun w => dayOf w =? day) l.

(** The reading of "the count starts from yesterday": when today has no
    entry and the [k >= 1] days before today all have one, with a gap
    right before them, the streak is [k]. *)
Definition countsFromYesterday (now : Z) (l : list Workout) : Prop :=
  ~ hasEntryOn (daysAgo now 0) l ->
  forall k, 1 <= k ->
    (forall i, 1 <= i <= k -> hasEntryOn (daysAgo now i) l) ->
    ~ hasEntryOn (daysAgo now (k + 1)) l ->
    calcStreak now l = k.

(** "Zero only when the list is empty or the most recent entry is older
    than yesterday". *)
Definition zeroOnlyWhenStale (now : Z) (l : list Workout) : Prop :=
  calcStreak now l = 0 ->
  l = [] \/ (forall w, w ∈ l -> dayOf w < daysAgo now 1).

(** Sample data: the clock stands at 01:00 on day 10; [onDay id d h] is an
    entry at hour [h] of day [d] (day 10 is today, day 9 yesterday). *)
Definition sample_now : Z := 10 * MS_PER_DAY + 3600000.
Definition onDay (id day hour : Z) : Workout :=
  mkWorkout id "Session" (day * MS_PER_DAY + hour * 3600000) [].

End Home.

(** ** JavaScript strings *)

Module Js.

(** [if (s)] on a string: only the empty string is falsy. *)
Definition truthy (s : string) : bool := negb (String.eqb s "").

(** [if (x)] on a string-or-null value. *)
Definition truthyOpt (o : option string) : bool :=
  match o with Some s => truthy s | None => false end.

(** The two built-ins whose result depends on the Unicode tables of the
    engine, [String.prototype.toLowerCase] and [String.prototype.trim], are
    taken from the platform.  All that is known of them here is that
    trimming the empty string leaves it empty. *)
Record Builtins := mkBuiltins {
  toLowerCase : string -> string;
  trim : string -> string;
  trim_empty : trim "" = ""
}.

(** Stand-ins for the examples: what the two built-ins do on ASCII text. *)
Definition lowerChar (c : ascii) : ascii :=
  let n := nat_of_ascii c in
  if ((65 <=? n)%nat && (n <=? 90)%nat)%bool then ascii_of_nat (n + 32) else c.

Fixpoint asciiToLowerCase (s : string) : string :=
  match s with
  | EmptyString => EmptyString
  | String c s' => String (lowerChar c) (asciiToLowerCase s')
  end.

(** [s.startsWith(q)]. *)
Fixpoint startsWith (s q : string) : bool :=
  match q, s with
  | EmptyString, _ => true
  | String _ _, EmptyString => false
  | String a q', String b s' => (Ascii.eqb a b && startsWith s' q')%bool
  end.

(** [s.includes(q)]: [q] occurs in [s] at some position. *)
Fixpoint includes (s q : string) : bool :=
  (startsWith s q ||
   match s with
   | EmptyString => false
   | String _ s' => includes s' q
   end)%bool.

(** ASCII white space: TAB, LF, VT, FF, CR and SPACE. *)
Definition isSpace (c : ascii) : bool :=
  let n := nat_of_ascii c in
  (((9 <=? n)%nat && (n <=? 13)%nat) || (n =? 32)%nat)%bool.

Fixpoint trimStart (s : string) : string :=
  match s with
  | EmptyString => EmptyString
  | String c s' => if isSpace c then trimStart s' else s
  end.

Definition asciiTrim (s : string) : string :=
  String.rev (trimStart (String.rev (trimStart s))).

Definition asciiBuiltins : Builtins := mkBuiltins asciiToLowerCase asciiTrim eq_refl.

End Js.

(** ** contexts/AuthContext.js: the session manager *)

Module Auth.

(** The identity record kept in React state and serialised under key [user]. *)
Record User := mkUser { id : Z; username : string; email : string }.

(** Success payload of [POST /auth/login]. *)
Record LoginData := mkLoginData {
  access_token : string;
  user_id : Z;
  data_username : string
}.

(** Error payload [{error: string}] and the [response] object that an axios
    rejection may carry. *)
Record ErrorBody := mkErrorBody { body_error : option string }.
Record Response := mkResponse { status : Z; data : option ErrorBody }.

(** What can be thrown inside the provider: an axios rejection (with or
    without a response), a rejected AsyncStorage promise, a [JSON.parse]
    syntax error, a failed destructuring. *)
Inductive exn :=
| AxiosError (response : option Response)
| StorageError
| SyntaxError
| TypeError.

(** Outcome of [axios.post]. *)
Inductive Reply :=
| Resolved (d : LoginData)
| Rejected (response : option Response).

(** Result of [JSON.parse] on the stored user record: it throws, yields
    [null], or yields an identity record. *)
Inductive Parsed :=
| ParseThrows
| ParsedNull
| ParsedUser (u : User).

(** AsyncStorage calls, and how the device treats one: it completes, or its
    promise rejects after only the keys in [done] were processed. *)
Inductive StorageOp :=
| GetItem (k : string)
| MultiGet (ks : list string)
| MultiSet (kvs : list (string * string))
| MultiRemove (ks : list string).

Inductive Fate :=
| Completes
| Fails (done : list string).

(** Everything outside the module: platform, JSON codec, server, device. *)
Record Env := mkEnv {
  platform_OS : string;
  JSON_stringify : User -> string;
  JSON_parse : string -> Parsed;
  post : string -> string -> string -> Reply;
  fate : StorageOp -> Fate
}.

(** Process-wide mutable state: AsyncStorage, the default headers of the
    shared axios instance ([api.defaults.headers.common]) and the four
    [useState] cells of [AuthProvider]. *)
Record World := mkWorld {
  storage : gmap string string;
  common  : gmap string string;
  user    : option User;
  token   : option string;
  loading : bool;
  error   : string
}.

(** An axios request configuration. *)
Record Config := mkConfig { url : string; headers : gmap string string }.

(** [{success: true}] and [{success: false, error: msg}]. *)
Inductive Result :=
| Success
| Failure (msg : string).

(** *** Async code as a state-and-exception monad *)

Inductive Outcome (A : Type) :=
| Returned (a : A)
| Thrown (e : exn).
Arguments Returned {A} a.
Arguments Thrown {A} e.

Definition M (A : Type) : Type := World -> Outcome A * World.

Definition ret {A} (a : A) : M A := fun w => (Returned a, w).

Definition bind {A B} (m : M A) (k : A -> M B) : M B :=
  fun w => match m w with
           | (Returned a, w') => k a w'
           | (Thrown e, w') => (Thrown e, w')
           end.

Definition throw {A} (e : exn) : M A := fun w => (Thrown e, w).

Notation "x <- m ;; k" := (bind m (fun x => k))
  (at level 100, m at next level, right associativity).
Notation "m ;;; k" := (bind m (fun _ => k))
  (at level 100, right associativity).

(** [try { body } catch (e) { handler e } finally { final }]: the handler
    sees what the body threw, and [final] runs on every path; when [final]
    completes, the outcome is the one reached before it. *)
Definition tryCatchFinally {A} (body : M A) (handler : exn -> M A)
           (final : M unit) : M A :=
  fun w =>
    let '(r, w1) := match body w with
                    | (Returned a, w1) => (Returned a, w1)
                    | (Thrown e, w1) => handler e w1
                    end in
    match final w1 with
    | (Returned _, w2) => (r, w2)
    | (Thrown e, w2) => (Thrown e, w2)
    end.

(** [try { body } finally { final }]: nothing is caught. *)
Definition tryFinally {A} (body : M A) (final : M unit) : M A :=
  tryCatchFinally body throw final.

(** *** State setters *)

Definition setUser (u : option User) : M unit :=
  fun w => (Returned tt, mkWorld (storage w) (common w) u (token w) (loading w) (error w)).
Definition setToken (t : option string) : M unit :=
  fun w => (Returned tt, mkWorld (storage w) (common w) (user w) t (loading w) (error w)).
Definition setLoading (b : bool) : M unit :=
  fun w => (Returned tt, mkWorld (storage w) (common w) (user w) (token w) b (error w)).
Definition setError (msg : string) : M unit :=
  fun w => (Returned tt, mkWorld (storage w) (common w) (user w) (token w) (loading w) msg).
Definition setStorage (s : gmap string string) (w : World) : World :=
  mkWorld s (common w) (user w) (token w) (loading w) (error w).
(** [api.defaults.headers.common.Authorization = v] *)
Definition setDefaultAuthorization (v : string) : M unit :=
  fun w => (Returned tt,
            mkWorld (storage w) (<["Authorization" := v]> (common w))
                    (user w) (token w) (loading w) (error w)).
(** [delete api.defaults.headers.common.Authorization] *)
Definition deleteDefaultAuthorization : M unit :=
  fun w => (Returned tt,
            mkWorld (storage w) (delete "Authorization" (common w))
                    (user w) (token w) (loading w) (error w)).

Section WithEnv.
Variable env : Env.

(** *** AsyncStorage *)

Definition processed (done : list string) (k : string) : bool :=
  bool_decide (k ∈ done).

Definition writeAll (kvs : list (string * string)) (s : gmap string string)
  : gmap string string :=
  fold_left (fun m kv => <[fst kv := snd kv]> m) kvs s.

Definition removeAll (ks : list string) (s : gmap string string)
  : gmap string string :=
  fold_left (fun m k => delete k m) ks s.

Definition getItem (k : string) : M (option string) :=
  fun w => match fate env (GetItem k) with
           | Completes => (Returned (storage w !! k), w)
           | Fails _ => (Thrown StorageError, w)
           end.

Definition multiGet (ks : list string) : M (list (string * option string)) :=
  fun w => match fate env (MultiGet ks) with
           | Completes => (Returned (List.map (fun k => (k, storage w !! k)) ks), w)
           | Fails _ => (Thrown StorageError, w)
           end.

Definition multiSet (kvs : list (string * string)) : M unit :=
  fun w => match fate env (MultiSet kvs) with
           | Completes => (Returned tt, setStorage (writeAll kvs (storage w)) w)
           | Fails done =>
               (Thrown StorageError,
                setStorage
                  (writeAll (List.filter (fun kv => processed done (fst kv)) kvs)
                            (storage w)) w)
           end.

Definition multiRemove (ks : list string) : M unit :=
  fun w => match fate env (MultiRemove ks) with
           | Completes => (Returned tt, setStorage (removeAll ks (storage w)) w)
           | Fails done =>
               (Thrown StorageError,
                setStorage (removeAll (List.filter (processed done) ks) (storage w)) w)
           end.

(** *** Module constants and the interceptor *)

Definition API_URL : string :=
  if String.eqb (platform_OS env) "android"
  then "http://10.0.2.2:5000/api"
  else "http://localhost:5000/api".

(** [`Bearer ${t}`] *)
Definition bearer (t : string) : string := "Bearer " ++ t.

(** The request interceptor registered on [api]. *)
Definition requestInterceptor (config : Config) : M Config :=
  stored <- getItem "auth_token" ;;
  if Js.truthyOpt stored
  then ret (mkConfig (url config)
                     (<["Authorization" := bearer (default "" stored)]> (headers config)))
  else ret config.

(** A request through [api]: axios merges the instance defaults under the
    headers of the call, then runs the request interceptor; its result is
    the configuration that goes out. *)
Definition request (config : Config) : M Config :=
  fun w => requestInterceptor
             (mkConfig (url config) (headers config ∪ common w)) w.

(** [axios.post(url, {email, password})] *)
Definition axios_post (u email password : string) : M LoginData :=
  match post env u email password with
  | Resolved d => ret d
  | Rejected r => throw (AxiosError r)
  end.

(** [e.response?.data?.error || fallback] *)
Definition errorMessage (e : exn) (fallback : string) : string :=
  match e with
  | AxiosError (Some r) =>
      match data r with
      | Some b => if Js.truthyOpt (body_error b)
                  then default "" (body_error b) else fallback
      | None => fallback
      end
  | _ => fallback
  end.

(** *** Operations of [AuthProvider] *)

(** The boot effect. *)
Definition restore : M unit :=
  tryFinally
    (got <- multiGet ["auth_token"; "user"] ;;
     match got with
     | (_, storedToken) :: (_, userJson) :: _ =>
         (if Js.truthyOpt storedToken then setToken storedToken else ret tt) ;;;
         (if Js.truthyOpt userJson
          then match JSON_parse env (default "" userJson) with
               | ParseThrows => throw SyntaxError
               | ParsedNull => setUser None
               | ParsedUser u => setUser (Some u)
               end
          else ret tt)
     | _ => throw TypeError
     end)
    (setLoading false).

Definition login (email password : string) : M Result :=
  setError "" ;;;
  setLoading true ;;;
  tryCatchFinally
    (d <- axios_post (API_URL ++ "/auth/login") email password ;;
     let u := mkUser (user_id d) (data_username d) email in
     multiSet [("auth_token", access_token d); ("user", JSON_stringify env u)] ;;;
     setDefaultAuthorization (bearer (access_token d)) ;;;
     setToken (Some (access_token d)) ;;;
     setUser (Some u) ;;;
     ret Success)
    (fun e =>
       let msg := errorMessage e "Login failed" in
       setError msg ;;;
       ret (Failure msg))
    (setLoading false).

Definition logout : M unit :=
  setLoading true ;;;
  tryFinally
    (multiRemove ["auth_token"; "user"] ;;;
     deleteDefaultAuthorization ;;;
     setToken None ;;;
     setUser None)
    (setLoading false).

End WithEnv.

(** State of a freshly mounted provider over a given store. *)
Definition boot (s : gmap string string) : World :=
  mkWorld s ∅ None None true "".

(** What the store holds for the session, as the boot effect reads it. *)
Definition storedToken (w : World) : option string :=
  if Js.truthyOpt (storage w !! "auth_token") then storage w !! "auth_token" else None.

Definition storedUser (env : Env) (w : World) : option User :=
  if Js.truthyOpt (storage w !! "user")
  then match JSON_parse env (default "" (storage w !! "user")) with
       | ParsedUser u => Some u
       | _ => None
       end
  else None.

(** The session invariant: token and user both set or both absent. *)
Definition paired (w : World) : Prop := is_Some (token w) <-> is_Some (user w).

(** Sample environment for the examples: an iOS device, a stand-in codec
    (the record is stored as its user name between braces; anything else
    but [null] does not parse), a server that always answers [reply], and
    a store whose every call meets the fate [f]. *)
Definition sampleStringify (u : User) : string := "{" ++ username u ++ "}".
Definition sampleParse (s : string) : Parsed :=
  if String.eqb s "null" then ParsedNull
  else if Js.startsWith s "{" then ParsedUser (mkUser 7 s "ann@example.org")
  else ParseThrows.
Definition sampleEnv (reply : Reply) (f : Fate) : Env :=
  mkEnv "ios" sampleStringify sampleParse (fun _ _ _ => reply) (fun _ => f).
Definition sampleData : LoginData := mkLoginData "tok-2" 7 "ann".
Definition invalidCredentials : Reply :=
  Rejected (Some (mkResponse 401 (Some (mkErrorBody (Some "Invalid credentials"))))).
(** A logged-in world: both keys stored, default header and React state set. *)
Definition sampleSession : World :=
  mkWorld {[ "auth_token" := "tok-1"; "user" := "{bob}" ]}
          {[ "Authorization" := "Bearer tok-1" ]}
          (Some (mkUser 3 "bob" "bob@example.org")) (Some "tok-1") false "".

(** Properties of one run, as the specification words them. *)

(** Logout "never fails and always ends the session". *)
Definition logoutEndsSession (env : Env) (w : World) : Prop :=
  fst (logout env w) = Returned tt /\
  storage (snd (logout env w)) !! "auth_token" = None /\
  storage (snd (logout env w)) !! "user" = None /\
  common (snd (logout env w)) !! "Authorization" = None /\
  token (snd (logout env w)) = None /\
  user (snd (logout env w)) = None.

(** Login "succeeds whenever the endpoint returns a token and identity". *)
Definition loginSucceeds (env : Env) (w : World) (email password : string) : Prop :=
  forall d,
    post env (API_URL env ++ "/auth/login") email password = Resolved d ->
    fst (login env email password w) = Returned Success.

End Auth.

(** ** WorkoutScreen.js: the search filter *)

Module WorkoutScreen.

Section Filter.
(** The string built-ins of the engine. *)
Variable js : Js.Builtins.
(** [new Date(t).toLocaleDateString()], which depends on the device locale. *)
Variable toLocaleDateString : Z -> string.

(** The predicate handed to [workouts.filter]; [query] is already lower case. *)
Definition matches (query : string) (workout : Workout) : bool :=
  (Js.includes (Js.toLowerCase js (workout_name workout)) query
   || Js.includes (toLocaleDateString (workout_date workout)) query
   || existsb (fun ex => Js.includes (Js.toLowerCase js (ex_name ex)) query)
              (exercises workout))%bool.

(** The filter effect, returning the value handed to [setFilteredWorkouts]. *)
Definition filterWorkouts (searchQuery : string) (workouts : list Workout)
  : list Workout :=
  if String.eqb (Js.trim js searchQuery) "" then workouts
  else
    let query := Js.toLowerCase js searchQuery in
    List.filter (matches query) workouts.

(** The fields the search looks at: name, formatted date, exercise names. *)
Definition searchableFields (workout : Workout) : list string :=
  workout_name workout
  :: toLocaleDateString (workout_date workout)
  :: List.map ex_name (exercises workout).

End Filter.

(** [field] contains [query] when case is ignored: the lower-cased field
    has the lower-cased query as a substring. *)
Definition containsCI (js : Js.Builtins) (field query : string) : Prop :=
  exists pre post,
    Js.toLowerCase js field = (pre ++ Js.toLowerCase js query ++ post)%string.

(** "For a non-empty query every retained item contains the query". *)
Definition retainedContainQuery (js : Js.Builtins) (fmt : Z -> string)
           (searchQuery : string) (workouts : list Workout) : Prop :=
  searchQuery <> "" ->
  forall w, w ∈ filterWorkouts js fmt searchQuery workouts ->
    exists f, f ∈ searchableFields fmt w /\ containsCI js f searchQuery.

(** Sample data: a US-style date formatter stand-in and one workout. *)
Definition sampleFormat (t : Z) : string := "1/5/2024".
Definition legDay : Workout := mkWorkout 1 "Legs" 0 [mkExercise "Squat"].

End WorkoutScreen.

(** ** CreateWorkoutScreen.js: wizard progress (two revisions of the file) *)

Module CreateWorkout.

Record SetEntry := mkSetEntry { weight : string; reps : string; completed : bool }.
Record Entry := mkEntry { entry_name : string; sets : list SetEntry }.

(** The [useState] cells read by [calculateProgress]. *)
Record Form := mkForm {
  workoutName : string;
  selectedTemplate : option string;
  exercises : list Entry
}.

Local Open Scope float_scope.
Local Set Warnings "-inexact-float".

(** The four conditions of the first revision. *)
Definition hasName (f : Form) : bool := Js.truthy (workoutName f).
Definition hasTemplate (f : Form) : bool := Js.truthyOpt (selectedTemplate f).
Definition hasExercises (f : Form) : bool := (0 <? length (exercises f))%nat.
Definition hasLoggedSet (f : Form) : bool :=
  existsb (fun e => existsb (fun s => (Js.truthy (weight s) && Js.truthy (reps s))%bool)
                            (sets e))
          (exercises f).

Definition bit (b : bool) : nat := if b then 1%nat else 0%nat.

Module FourStep.

Definition calculateProgress (f : Form) : float :=
  let progress := 0 in
  let progress := if hasName f then progress + 0.25 else progress in
  let progress := if hasTemplate f then progress + 0.25 else progress in
  let progress := if hasExercises f then progress + 0.25 else progress in
  let progress := if hasLoggedSet f then progress + 0.25 else progress in
  progress.

Definition stepsDone (f : Form) : nat :=
  (bit (hasName f) + bit (hasTemplate f) + bit (hasExercises f) + bit (hasLoggedSet f))%nat.

End FourStep.

Module ThreeStep.

Definition calculateProgress (f : Form) : float :=
  let progress := 0 in
  let progress := if hasName f then progress + 0.33 else progress in
  let progress := if hasTemplate f then progress + 0.33 else progress in
  let progress := if hasExercises f then progress + 0.34 else progress in
  progress.

Definition stepsDone (f : Form) : nat :=
  (bit (hasName f) + bit (hasTemplate f) + bit (hasExercises f))%nat.

End ThreeStep.

(** [n] equal shares of size [x], added up as the code adds them. *)
Fixpoint shares (n : nat) (x : float) : float :=
  match n with
  | O => 0
  | S n' => shares n' x + x
  end.

(** "Each satisfied condition contributes an equal share": forms with the
    same number of satisfied conditions score the same. *)
Definition equalShares (steps : Form -> nat) (progress : Form -> float) : Prop :=
  forall f g, steps f = steps g -> progress f = progress g.

(** Sample forms: only the name filled in; only an exercise added. *)
Definition nameOnly : Form := mkForm "Push day" None [].
Definition exerciseOnly : Form :=
  mkForm "" None [mkEntry "Squat" [mkSetEntry "" "" false]].

End CreateWorkout.

(** ** contexts/AuthContext.js: registration *)

Module Registration.
Import Auth.

(** Body of [POST /auth/register] and its success payload
    [{access_token, user_id}]. *)
Record RegisterBody := mkRegisterBody {
  reg_username : string;
  reg_email : string;
  reg_password : string;
  date_of_birth : string;
  reg_gender : string;
  reg_height : string;
  reg_weight : string
}.

Record RegisterData := mkRegisterData {
  reg_access_token : string;
  reg_user_id : Z
}.

Inductive RegisterReply :=
| RegResolved (d : RegisterData)
| RegRejected (response : option Response).

Section WithServer.
Variable env : Env.
(** [axios.post] on the registration endpoint. *)
Variable postForm : string -> RegisterBody -> RegisterReply.

Definition axios_post_form (u : string) (body : RegisterBody) : M RegisterData :=
  match postForm u body with
  | RegResolved d => ret d
  | RegRejected r => throw (AxiosError r)
  end.

Definition register (username email password dateOfBirth gender height weight : string)
  : M Result :=
  setError "" ;;;
  setLoading true ;;;
  tryCatchFinally
    (d <- axios_post_form (API_URL env ++ "/auth/register")
            (mkRegisterBody username email password dateOfBirth gender height weight) ;;
     let userData := mkUser (reg_user_id d) username email in
     multiSet env [("auth_token", reg_access_token d);
                   ("user", JSON_stringify env userData)] ;;;
     setDefaultAuthorization (bearer (reg_access_token d)) ;;;
     setToken (Some (reg_access_token d)) ;;;
     setUser (Some userData) ;;;
     ret Success)
    (fun e =>
       let msg := errorMessage e "Registration failed" in
       setError msg ;;;
       ret (Failure msg))
    (setLoading false).

End WithServer.

(** Sample codec that round-trips on user 7: the record is stored as its
    user name. *)
Definition nameCodecEnv (reply : Reply) (f : Fate) : Env :=
  mkEnv "android" username
        (fun s => ParsedUser (mkUser 7 s "ann@example.org"))
        (fun _ _ _ => reply) (fun _ => f).

End Registration.

(** ** SocialScreen.js: helpers *)

Module SocialScreen.
Import Auth.

(** [`${token}`] for the [token] cell: a string, or [null]. *)
Definition showToken (token : option string) : string := default "null" token.

(** [authHdr(token)]: the per-call options
    [{ headers: { Authorization: `Bearer ${token}` } }]. *)
Definition authHdr (token : option string) : gmap string string :=
  {[ "Authorization" := ("Bearer " ++ showToken token)%string ]}.

(** Outcome of [timeAgo]: the text is [`${n}d ago`], [`${n}h ago`],
    [`${n}m ago`] or ['Just now']. *)
Inductive Ago :=
| DaysAgo (d : Z)
| HoursAgo (h : Z)
| MinutesAgo (m : Z)
| JustNow.

(** [timeAgo(ts)], with [now] and [t] the time values of [new Date()] and
    [new Date(ts)]; [Math.floor] of a quotient of integers is [Z.div]. *)
Definition timeAgo (now t : Z) : Ago :=
  let d := (now - t) / 86400000 in
  let h := (now - t) / 3600000 in
  let m := (now - t) / 60000 in
  if 0 <? d then DaysAgo d
  else if 0 <? h then HoursAgo h
  else if 0 <? m then MinutesAgo m
  else JustNow.

End SocialScreen.

(** ** WorkoutScreen.js: screen state, loading and deleting *)

Module WorkoutList.
Import WorkoutScreen.

(** The [useState] cells of [WorkoutScreen]. *)
Record State := mkState {
  loading : bool;
  refreshing : bool;
  workouts : list Workout;
  searchQuery : string;
  filteredWorkouts : list Workout;
  error : option string
}.

(** The filter effect, which React re-runs whenever [searchQuery] or
    [workouts] has changed. *)
Definition filterEffect (js : Js.Builtins) (fmt : Z -> string) (st : State) : State :=
  mkState (loading st) (refreshing st) (workouts st) (searchQuery st)
          (filterWorkouts js fmt (searchQuery st) (workouts st)) (error st).

(** [workouts.filter(w => w.workout_id !== workoutId)] *)
Definition withoutId (workoutId : Z) (ws : list Workout) : list Workout :=
  List.filter (fun w => negb (workout_id w =? workoutId)) ws.

(** The [onPress] of the "Delete" button of [handleDeleteWorkout];
    [deleted] tells whether [api.delete] resolved.  On rejection only an
    alert is shown. *)
Definition confirmDelete (deleted : bool) (workoutId : Z) (st : State) : State :=
  if deleted then
    let updatedWorkouts := withoutId workoutId (workouts st) in
    mkState (loading st) (refreshing st) updatedWorkouts (searchQuery st)
            updatedWorkouts (error st)
  else st.

End WorkoutList.

(** ** LeaderboardScreen.js: the search filter *)

Module Leaderboard.

Record Entry := mkEntry {
  user_id : Z;
  username : string;
  rank_tier : string;
  age : Z
}.

(** The filter effect, returning the value handed to
    [setFilteredLeaderboard]. *)
Definition filterLeaderboard (js : Js.Builtins) (searchQuery : string)
           (leaderboard : list Entry) : list Entry :=
  if String.eqb (Js.trim js searchQuery) "" then leaderboard
  else
    let query := Js.toLowerCase js searchQuery in
    List.filter (fun entry => Js.includes (Js.toLowerCase js (username entry)) query)
                leaderboard.

End Leaderboard.

(** ** AvatarScreen: customisation state *)

Module Avatar.

(** [selectedOptions]. *)
Record Options := mkOptions {
  body_type : string;
  hair_style : string;
  hair_color : string;
  skin_tone : string;
  outfit : string;
  accessories : list string
}.

(** The five single-choice categories rendered by [renderOptionSelector]. *)
Inductive Category := BodyType | HairStyle | HairColor | SkinTone | Outfit.

(** [handleOptionSelect(category, value)] *)
Definition handleOptionSelect (category : Category) (value : string)
           (selectedOptions : Options) : Options :=
  match category with
  | BodyType => mkOptions value (hair_style selectedOptions) (hair_color selectedOptions)
                  (skin_tone selectedOptions) (outfit selectedOptions)
                  (accessories selectedOptions)
  | HairStyle => mkOptions (body_type selectedOptions) value (hair_color selectedOptions)
                  (skin_tone selectedOptions) (outfit selectedOptions)
                  (accessories selectedOptions)
  | HairColor => mkOptions (body_type selectedOptions) (hair_style selectedOptions) value
                  (skin_tone selectedOptions) (outfit selectedOptions)
                  (accessories selectedOptions)
  | SkinTone => mkOptions (body_type selectedOptions) (hair_style selectedOptions)
                  (hair_color selectedOptions) value (outfit selectedOptions)
                  (accessories selectedOptions)
  | Outfit => mkOptions (body_type selectedOptions) (hair_style selectedOptions)
                  (hair_color selectedOptions) (skin_tone selectedOptions) value
                  (accessories selectedOptions)
  end.

Definition withAccessories (l : list string) (o : Options) : Options :=
  mkOptions (body_type o) (hair_style o) (hair_color o) (skin_tone o) (outfit o) l.

(** [currentAccessories.includes(accessory)] *)
Definition arrayIncludes (l : list string) (x : string) : bool :=
  existsb (String.eqb x) l.

(** [handleAccessoryToggle(accessory)] *)
Definition handleAccessoryToggle (accessory : string) (selectedOptions : Options)
  : Options :=
  let currentAccessories := accessories selectedOptions in
  if arrayIncludes currentAccessories accessory then
    let updatedAccessories :=
      List.filter (fun item => negb (String.eqb item accessory)) currentAccessories in
    withAccessories updatedAccessories selectedOptions
  else
    withAccessories (currentAccessories ++ [accessory]) selectedOptions.

(** [response.data] of [GET /avatar/:id]: any field may be missing. *)
Record AvatarData := mkAvatarData {
  data_body_type : option string;
  data_hair_style : option string;
  data_hair_color : option string;
  data_skin_tone : option string;
  data_outfit : option string;
  data_accessories : option (list string)
}.

(** How [api.get] ends: it resolves with [response.data] (possibly empty),
    or rejects with an error whose [response.status] may be present. *)
Inductive AvatarReply :=
| AvatarResolved (data : option AvatarData)
| AvatarRejected (status : option Z).

Record State := mkState {
  loading : bool;
  refreshing : bool;
  avatar : option AvatarData;
  selectedOptions : Options;
  error : option string
}.

(** [x || fallback] on an optional string. *)
Definition orElse (x : option string) (fallback : string) : string :=
  if Js.truthyOpt x then default fallback x else fallback.

(** [loadAvatar]. *)
Definition loadAvatar (reply : AvatarReply) (st : State) : State :=
  match reply with
  | AvatarResolved (Some d) =>
      mkState false false (Some d)
        (mkOptions (orElse (data_body_type d) "athletic")
                   (orElse (data_hair_style d) "short")
                   (orElse (data_hair_color d) "brown")
                   (orElse (data_skin_tone d) "medium")
                   (orElse (data_outfit d) "casual")
                   (default [] (data_accessories d)))
        None
  | AvatarResolved None =>
      mkState false false (avatar st) (selectedOptions st) None
  | AvatarRejected status =>
      if bool_decide (status = Some 404)
      then mkState false false (avatar st) (selectedOptions st) None
      else mkState false false (avatar st) (selectedOptions st)
                   (Some "Failed to load avatar. Pull down to refresh.")
  end.

(** The initial [selectedOptions]. *)
Definition initialOptions : Options :=
  mkOptions "athletic" "short" "brown" "medium" "casual" [].

(** Every single-choice category has a selection. *)
Definition allChosen (o : Options) : Prop :=
  body_type o <> "" /\ hair_style o <> "" /\ hair_color o <> "" /\
  skin_tone o <> "" /\ outfit o <> "".

End Avatar.

(** ** CreateWorkoutScreen.js: the exercise editor

    [removeSet], [updateSet], [toggleSetCompletion] and
    [getFilteredExercises] read the same in the two revisions of the file.
    [handleTemplateSelect], [addExercise], [removeExercise] and [addSet] are
    those of the second revision: in the first one each of them first
    evaluates [LayoutAnimation.configureNext(ANIMATION_CONFIG)], where
    [ANIMATION_CONFIG] is declared nowhere, so the call throws a
    ReferenceError before any setter is reached ([FirstRevision] below). *)

Module Editor.
Import CreateWorkout.

(** An entry of the catalogue [EXERCISE_CATEGORIES[cat].exercises]. *)
Record CatalogExercise := mkCatalogExercise {
  cat_name : string;
  cat_icon : string;
  cat_description : string
}.

(** The catalogue, as [Object.entries(EXERCISE_CATEGORIES)] lists it:
    category name and its exercises, in the order of the literal. *)
Definition Catalog := list (string * list CatalogExercise).

(** A workout template of [workoutTemplates]. *)
Record Template := mkTemplate {
  template_id : string;
  template_name : string;
  categories : list string
}.

(** The sets of a new exercise: [[{ weight: '', reps: '', completed: false }]]. *)
Definition blankSet : SetEntry := mkSetEntry "" "" false.

(** The two keys [updateSet] is called with. *)
Inductive Field := FWeight | FReps.

(** [{ ...s, [field]: value }] *)
Definition setField (field : Field) (value : string) (s : SetEntry) : SetEntry :=
  match field with
  | FWeight => mkSetEntry value (reps s) (completed s)
  | FReps => mkSetEntry (weight s) value (completed s)
  end.

(** [arr.filter((x, i) => p(i, x))], scanning from index [i]. *)
Fixpoint filterIndexed {A} (p : nat -> A -> bool) (i : nat) (l : list A) : list A :=
  match l with
  | [] => []
  | x :: l' => if p i x then x :: filterIndexed p (S i) l'
               else filterIndexed p (S i) l'
  end.

Section WithIds.
(** Exercise ids are opaque keys ([Date.now().toString()], or
    [Date.now() + Math.random()] for template exercises) compared with
    [===]. *)
Context {Id : Type} `{EqDecision Id}.

(** An element of the [exercises] cell. *)
Record Draft := mkDraft {
  draft_id : Id;
  draft_name : string;
  draft_icon : string;
  draft_category : string;
  draft_sets : list SetEntry
}.

(** [{ ...e, sets: s }] *)
Definition withSets (e : Draft) (s : list SetEntry) : Draft :=
  mkDraft (draft_id e) (draft_name e) (draft_icon e) (draft_category e) s.

(** What [calculateProgress] reads of an exercise. *)
Definition toEntry (e : Draft) : CreateWorkout.Entry :=
  CreateWorkout.mkEntry (draft_name e) (draft_sets e).

(** [addExercise(exercise, category)] of the second revision; [newId] is
    the id drawn from the clock.  Returns the value handed to
    [setExercises]. *)
Definition addExercise (newId : Id) (exercise : CatalogExercise) (category : string)
           (exercises : list Draft) : list Draft :=
  exercises ++ [mkDraft newId (cat_name exercise) (cat_icon exercise) category [blankSet]].

(** [removeExercise(id)] of the second revision. *)
Definition removeExercise (id : Id) (exercises : list Draft) : list Draft :=
  List.filter (fun e => negb (bool_decide (draft_id e = id))) exercises.

(** [addSet(exerciseId)] of the second revision. *)
Definition addSet (exerciseId : Id) (exercises : list Draft) : list Draft :=
  List.map (fun e => if bool_decide (draft_id e = exerciseId)
                     then withSets e (draft_sets e ++ [blankSet])
                     else e) exercises.

(** [removeSet(exerciseId, setIndex)] (both revisions). *)
Definition removeSet (exerciseId : Id) (setIndex : nat) (exercises : list Draft)
  : list Draft :=
  List.map (fun e => if bool_decide (draft_id e = exerciseId)
                     then withSets e (filterIndexed (fun i _ => negb (i =? setIndex)%nat)
                                                    0 (draft_sets e))
                     else e) exercises.

(** [updateSet(exerciseId, setIndex, field, value)] (both revisions). *)
Definition updateSet (exerciseId : Id) (setIndex : nat) (field : Field) (value : string)
           (exercises : list Draft) : list Draft :=
  List.map (fun e => if bool_decide (draft_id e = exerciseId)
                     then withSets e (imap (fun i s => if (i =? setIndex)%nat
                                                       then setField field value s
                                                       else s) (draft_sets e))
                     else e) exercises.

(** [toggleSetCompletion(exerciseId, setIndex)] (both revisions). *)
Definition toggleSetCompletion (exerciseId : Id) (setIndex : nat)
           (exercises : list Draft) : list Draft :=
  List.map (fun e => if bool_decide (draft_id e = exerciseId)
                     then withSets e
                            (imap (fun i s => if (i =? setIndex)%nat
                                              then mkSetEntry (weight s) (reps s)
                                                              (negb (completed s))
                                                   else s) (draft_sets e))
                     else e) exercises.

(** [EXERCISE_CATEGORIES[cat]?.exercises]: the exercises of the category
    named [cat], when the catalogue has it. *)
Definition categoryExercises (catalog : Catalog) (cat : string)
  : option (list CatalogExercise) :=
  snd <$> List.find (fun entry => String.eqb (fst entry) cat) catalog.

(** The exercises [handleTemplateSelect] builds for one template: for each
    category, in order, the first two catalogue exercises; [idAt k] is the
    id drawn for the [k]-th exercise built. *)
Definition templateExercises (catalog : Catalog) (idAt : nat -> Id)
           (template : Template) : list Draft :=
  imap (fun k ce => mkDraft (idAt k) (cat_name (snd ce)) (cat_icon (snd ce))
                            (fst ce) [blankSet])
       (List.concat
          (List.map (fun cat =>
                       List.map (fun ex => (cat, ex))
                                (take 2 (default [] (categoryExercises catalog cat))))
                    (categories template))).

(** [handleTemplateSelect(template)] of the second revision: the new values
    of the [selectedTemplate] and [exercises] cells. *)
Definition handleTemplateSelect (catalog : Catalog) (idAt : nat -> Id)
           (template : Template) : option string * list Draft :=
  (Some (template_id template),
   if negb (String.eqb (template_id template) "custom")
   then templateExercises catalog idAt template
   else []).

(** The wizard state as [calculateProgress] sees it. *)
Definition formOf (workoutName : string) (selectedTemplate : option string)
           (exercises : list Draft) : Form :=
  mkForm workoutName selectedTemplate (List.map toEntry exercises).

End WithIds.

Arguments Draft : clear implicits.

(** What a handler of the first revision leaves behind when it stops at
    [LayoutAnimation.configureNext(ANIMATION_CONFIG)]: evaluating the
    argument throws, since the identifier has no declaration in the file,
    and no setter has run yet. *)
Inductive HandlerError := ReferenceError (identifier : string).

Module FirstRevision.
Section WithIds.
Context {Id : Type}.

(** The value handed to the setters, or the error thrown before them. *)
Definition handleTemplateSelect (catalog : Catalog) (idAt : nat -> Id)
           (template : Template) : HandlerError + (option string * list (Draft Id)) :=
  inl (ReferenceError "ANIMATION_CONFIG").

Definition addExercise (newId : Id) (exercise : CatalogExercise) (category : string)
           (exercises : list (Draft Id)) : HandlerError + list (Draft Id) :=
  inl (ReferenceError "ANIMATION_CONFIG").

Definition removeExercise (id : Id) (exercises : list (Draft Id))
  : HandlerError + list (Draft Id) :=
  inl (ReferenceError "ANIMATION_CONFIG").

Definition addSet (exerciseId : Id) (exercises : list (Draft Id))
  : HandlerError + list (Draft Id) :=
  inl (ReferenceError "ANIMATION_CONFIG").

End WithIds.
End FirstRevision.

(** [ex.name.toLowerCase().includes(q) || ex.description.toLowerCase().includes(q)]
    with [q = searchQuery.toLowerCase()]. *)
Definition catalogMatch (js : Js.Builtins) (searchQuery : string)
           (ex : CatalogExercise) : bool :=
  (Js.includes (Js.toLowerCase js (cat_name ex)) (Js.toLowerCase js searchQuery)
   || Js.includes (Js.toLowerCase js (cat_description ex))
                  (Js.toLowerCase js searchQuery))%bool.

(** [getFilteredExercises()] returns a plain exercise list when there is no
    query and a list of [{category, exercises}] groups otherwise. *)
Inductive Listing :=
| Plain (exercises : list CatalogExercise)
| Grouped (groups : list (string * list CatalogExercise)).

Definition getFilteredExercises (js : Js.Builtins) (catalog : Catalog)
           (searchQuery selectedCategory : string) : Listing :=
  if negb (Js.truthy searchQuery)
  then Plain (default [] (categoryExercises catalog selectedCategory))
  else
    Grouped
      (List.concat
         (List.map (fun entry =>
                      let categoryFiltered :=
                        List.filter (catalogMatch js searchQuery) (snd entry) in
                      if (0 <? length categoryFiltered)%nat
                      then [(fst entry, categoryFiltered)]
                      else [])
                   catalog)).

End Editor.

(** ** CreateWorkoutScreen.js: saving the workout *)

Module SaveWorkout.
Import CreateWorkout Editor.

(** A row of [GET /exercises]. *)
Record ExerciseRow := mkExerciseRow { row_name : string; row_exercise_id : Z }.

(** What [exerciseMap[name]] yields when it is truthy: an id stored from
    the server's list, or the property of that name that a plain object
    inherits from [Object.prototype] (a function or an object). *)
Inductive ExerciseId :=
| ServerId (n : Z)
| PrototypeValue (key : string).

(** One element of [apiExercises]. *)
Record ApiExercise := mkApiExercise {
  api_exercise_id : ExerciseId;
  api_sets : nat;
  api_reps : float;
  api_weight : float
}.

(** The body of [POST /workouts]. *)
Record WorkoutData := mkWorkoutData {
  wd_user_id : Z;
  wd_workout_name : string;
  wd_workout_date : string;
  wd_notes : string;
  wd_exercises : list ApiExercise
}.

(** What the catch block reads of a rejected request:
    [e.response?.data?.error] and [e.message]. *)
Record Rejection := mkRejection { rej_error : option string; rej_message : string }.

Inductive GetReply :=
| GetResolved (allExercises : list ExerciseRow)
| GetRejected (r : Rejection).

Inductive PostReply :=
| PostResolved
| PostRejected (r : Rejection).

(** What can be thrown inside the try block. *)
Inductive Thrown :=
| RequestError (r : Rejection)
| NotFound (name : string)
| TypeErr.

(** The platform: the string built-ins, the names of the properties of
    [Object.prototype], the two number parsers, the text of a [TypeError]
    and the two server replies. *)
Record Platform := mkPlatform {
  builtins : Js.Builtins;
  prototypeKey : string -> bool;
  parseInt10 : string -> float;
  parseFloat : string -> float;
  typeErrorMessage : string;
  getExercises : GetReply;
  postWorkout : WorkoutData -> PostReply
}.

(** The cells and context values [saveWorkout] reads. *)
Record Input {Id : Type} := mkInput {
  in_workoutName : string;
  in_notes : string;
  in_selectedDate : string;
  in_user : option Auth.User;
  in_exercises : list (Draft Id)
}.
Arguments Input : clear implicits.
Arguments mkInput {Id} _ _ _ _ _.

(** What [saveWorkout] leaves behind: the [errMsg] and [saving] cells,
    whether the catalogue was fetched, the body handed to [api.post] (if it
    got that far) and whether [navigation.goBack()] ran. *)
Record Outcome := mkOutcome {
  errMsg : option string;
  saving : bool;
  fetched : bool;
  posted : option WorkoutData;
  wentBack : bool
}.

Definition quote : string := String (ascii_of_nat 34) EmptyString.

(** [x || d] on numbers: [NaN] and zero are falsy. *)
Definition orNumber (x d : float) : float :=
  if (PrimFloat.is_nan x || PrimFloat.is_zero x)%bool then d else x.

(** The own properties of [exerciseMap = {}] after
    [allExercises.forEach(ex => { exerciseMap[ex.name] = ex.exercise_id })]:
    later rows overwrite earlier ones of the same name.  A row named
    [__proto__] leaves no own property: the assignment goes to the setter
    inherited from [Object.prototype], which ignores a number. *)
Definition exerciseMap (allExercises : list ExerciseRow) : gmap string Z :=
  fold_left (fun m ex => if String.eqb (row_name ex) "__proto__" then m
                         else <[row_name ex := row_exercise_id ex]> m)
            allExercises ∅.

(** The catalogue's answer for a name: the id of the last row with that
    name. *)
Definition lastRow (allExercises : list ExerciseRow) (name : string) (n : Z) : Prop :=
  exists pre r post,
    allExercises = pre ++ r :: post /\
    row_name r = name /\ row_exercise_id r = n /\
    forall r', r' ∈ post -> row_name r' <> name.

Section WithPlatform.
Context {Id : Type}.
Variable pf : Platform.

(** [e.response?.data?.error || e.message || 'Failed to save workout'] *)
Definition messageOf (e : Thrown) : string :=
  let orFallback (m : string) :=
    if Js.truthy m then m else "Failed to save workout" in
  match e with
  | RequestError r =>
      if Js.truthyOpt (rej_error r) then default "" (rej_error r)
      else orFallback (rej_message r)
  | NotFound name =>
      orFallback ("Exercise " ++ quote ++ name ++ quote ++ " not found in database")%string
  | TypeErr => orFallback (typeErrorMessage pf)
  end.

(** [exerciseMap[name]] when it is truthy: an own id other than 0, else a
    property inherited from [Object.prototype]; [None] stands for the
    falsy results ([undefined] and 0). *)
Definition lookupId (map : gmap string Z) (name : string) : option ExerciseId :=
  match map !! name with
  | Some exerciseId => if exerciseId =? 0 then None else Some (ServerId exerciseId)
  | None => if prototypeKey pf name then Some (PrototypeValue name) else None
  end.

(** The callback of [exercises.map]: it throws when the lookup of the name
    is falsy and when the exercise has no set at all. *)
Definition toApiExercise (map : gmap string Z) (exercise : Draft Id)
  : Thrown + ApiExercise :=
  match lookupId map (draft_name exercise) with
  | Some exerciseId =>
      let found := List.find (fun s => (Js.truthy (weight s) && Js.truthy (reps s))%bool)
                             (draft_sets exercise) in
      match (match found with Some s => Some s | None => head (draft_sets exercise) end) with
      | Some validSet =>
          inr (mkApiExercise exerciseId (length (draft_sets exercise))
                 (orNumber (parseInt10 pf (reps validSet)) 10%float)
                 (orNumber (parseFloat pf (weight validSet)) 0%float))
      | None => inl TypeErr
      end
  | None => inl (NotFound (draft_name exercise))
  end.

(** [exercises.map(...)]: the first throw ends the whole map. *)
Fixpoint toApiExercises (map : gmap string Z) (exercises : list (Draft Id))
  : Thrown + list ApiExercise :=
  match exercises with
  | [] => inr []
  | e :: rest =>
      match toApiExercise map e with
      | inl t => inl t
      | inr row =>
          match toApiExercises map rest with
          | inl t => inl t
          | inr rows => inr (row :: rows)
          end
      end
  end.

Definition failed (t : Thrown) (didFetch : bool) (sent : option WorkoutData) : Outcome :=
  mkOutcome (Some (messageOf t)) false didFetch sent false.

(** [saveWorkout]; [st] gives the [errMsg] and [saving] cells before the
    call. *)
Definition saveWorkout (inp : Input Id) (st : Outcome) : Outcome :=
  if negb (Js.truthy (Js.trim (builtins pf) (in_workoutName inp))) then
    mkOutcome (Some "Please enter a workout name") (saving st) false None false
  else if (length (in_exercises inp) =? 0)%nat then
    mkOutcome (Some "Add at least one exercise") (saving st) false None false
  else
    match getExercises pf with
    | GetRejected r => failed (RequestError r) true None
    | GetResolved allExercises =>
        match toApiExercises (exerciseMap allExercises) (in_exercises inp) with
        | inl t => failed t true None
        | inr apiExercises =>
            match in_user inp with
            | None => failed TypeErr true None
            | Some u =>
                let workoutData :=
                  mkWorkoutData (Auth.id u) (in_workoutName inp) (in_selectedDate inp)
                                (in_notes inp) apiExercises in
                match postWorkout pf workoutData with
                | PostResolved => mkOutcome None false true (Some workoutData) true
                | PostRejected r => failed (RequestError r) true (Some workoutData)
                end
            end
        end
    end.

End WithPlatform.

End SaveWorkout.

(** ** ProfileScreen.js: age *)

Module Profile.

(** What [getFullYear()], [getMonth()] (0 to 11) and [getDate()] (1 to 31)
    return for a date. *)
Record CalendarDate := mkDate { year : Z; month : Z; day : Z }.

(** [calculateAge(dateOfBirth)]: [dateOfBirth] is [None] when the argument
    is falsy, else the calendar date of [new Date(dateOfBirth)]; [today]
    is the calendar date of [new Date()].  [None] is the [null] result. *)
Definition calculateAge (today : CalendarDate) (dateOfBirth : option CalendarDate)
  : option Z :=
  match dateOfBirth with
  | None => None
  | Some dob =>
      let age := year today - year dob in
      let monthDiff := month today - month dob in
      let age := if ((monthDiff <? 0)
                     || ((monthDiff =? 0) && (day today <? day dob)))%bool
                 then age - 1 else age in
      Some age
  end.

(** Calendar dates with a month in 0..11 and a day in 1..31. *)
Definition wellFormed (d : CalendarDate) : Prop :=
  0 <= month d <= 11 /\ 1 <= day d <= 31.

(** [a] is strictly earlier in the calendar than [b]. *)
Definition earlier (a b : CalendarDate) : Prop :=
  year a < year b
  \/ (year a = year b /\ (month a < month b \/ (month a = month b /\ day a < day b))).

(** The [n]-th anniversary of a date. *)
Definition anniversary (d : CalendarDate) (n : Z) : CalendarDate :=
  mkDate (year d + n) (month d) (day d).

End Profile.

(** ** HomeScreen.js: loading the dashboard *)

Module HomeLoad.
Import Auth.

Record Ranking := mkRanking {
  muscle_group : string;
  rank_tier : string;
  mmr_score : float
}.

(** The [useState] cells of [HomeScreen]. *)
Record Cells := mkCells {
  h_loading : bool;
  h_refreshing : bool;
  h_workouts : list Workout;
  h_rankings : list Ranking;
  h_streak : Z;
  h_error : option string
}.

(** The screen together with the session it shares with the provider;
    [redirected] records [navigation.replace('Login')]. *)
Record Screen := mkScreen {
  session : World;
  cells : Cells;
  redirected : bool
}.

(** [data] of [GET /workouts]: [None] when there is no body at all, else
    the [workouts] field, which may be missing. *)
Definition WorkoutsBody := option (option (list Workout)).
(** [data] of [GET /rankings/user/:id]: [None] when it is not an array. *)
Definition RankingsBody := option (list Ranking).

Inductive Answer (A : Type) :=
| Answered (data : A)
| Refused (response : option Response).
Arguments Answered {A} data.
Arguments Refused {A} response.

(** The server, as seen through [api.get]. *)
Record Server := mkServer {
  workoutsPage : Answer WorkoutsBody;
  rankingsOf : Z -> Answer RankingsBody
}.

(** Async code of the screen: state and exceptions again. *)
Definition S (A : Type) : Type := Screen -> Outcome A * Screen.

Definition retS {A} (a : A) : S A := fun sc => (Returned a, sc).
Definition bindS {A B} (m : S A) (k : A -> S B) : S B :=
  fun sc => match m sc with
            | (Returned a, sc') => k a sc'
            | (Thrown e, sc') => (Thrown e, sc')
            end.
Definition throwS {A} (e : exn) : S A := fun sc => (Thrown e, sc).

(** [try { body } catch (e) { handler e }] *)
Definition tryCatchS {A} (body : S A) (handler : exn -> S A) : S A :=
  fun sc => match body sc with
            | (Returned a, sc') => (Returned a, sc')
            | (Thrown e, sc') => handler e sc'
            end.

(** [try { body } catch (e) { handler e } finally { final }] *)
Definition tryCatchFinallyS {A} (body : S A) (handler : exn -> S A) (final : S unit)
  : S A :=
  fun sc =>
    let '(r, sc1) := tryCatchS body handler sc in
    match final sc1 with
    | (Returned _, sc2) => (r, sc2)
    | (Thrown e, sc2) => (Thrown e, sc2)
    end.

(** Run a provider operation on the shared session. *)
Definition onSession {A} (m : M A) : S A :=
  fun sc => let '(r, w) := m (session sc) in
            (r, mkScreen w (cells sc) (redirected sc)).

Definition setCells (f : Cells -> Cells) : S unit :=
  fun sc => (Returned tt, mkScreen (session sc) (f (cells sc)) (redirected sc)).

Definition setLoadingH (b : bool) : S unit :=
  setCells (fun c => mkCells b (h_refreshing c) (h_workouts c) (h_rankings c)
                             (h_streak c) (h_error c)).
Definition setRefreshingH (b : bool) : S unit :=
  setCells (fun c => mkCells (h_loading c) b (h_workouts c) (h_rankings c)
                             (h_streak c) (h_error c)).
Definition setWorkoutsH (ws : list Workout) : S unit :=
  setCells (fun c => mkCells (h_loading c) (h_refreshing c) ws (h_rankings c)
                             (h_streak c) (h_error c)).
Definition setRankingsH (rs : list Ranking) : S unit :=
  setCells (fun c => mkCells (h_loading c) (h_refreshing c) (h_workouts c) rs
                             (h_streak c) (h_error c)).
Definition setStreakH (n : Z) : S unit :=
  setCells (fun c => mkCells (h_loading c) (h_refreshing c) (h_workouts c) (h_rankings c)
                             n (h_error c)).
Definition setErrorH (e : option string) : S unit :=
  setCells (fun c => mkCells (h_loading c) (h_refreshing c) (h_workouts c) (h_rankings c)
                             (h_streak c) e).
(** [navigation.replace('Login')] *)
Definition replaceWithLogin : S unit :=
  fun sc => (Returned tt, mkScreen (session sc) (cells sc) true).

Local Notation "x <~ m ;; k" := (bindS m (fun x => k))
  (at level 100, m at next level, right associativity).
Local Notation "m ~> k" := (bindS m (fun _ => k))
  (at level 100, right associativity).

(** [`${n}`] for an integer. *)
Definition showInt (n : Z) : string := NilZero.string_of_int (Z.to_int n).

(** [err.response?.status] *)
Definition statusOf (e : exn) : option Z :=
  match e with
  | AxiosError (Some r) => Some (status r)
  | _ => None
  end.

Section WithServer.
Variable env : Env.
Variable server : Server.

(** [api.get(url, ...)]: the request passes the interceptor of the shared
    client, then the server answers. *)
Definition apiGet {A} (u : string) (answer : Answer A) : S A :=
  onSession (request env (mkConfig u ∅)) ~>
  match answer with
  | Answered d => retS d
  | Refused r => throwS (AxiosError r)
  end.

(** [loadData]; [now] is the clock read by [calcStreak]. *)
Definition loadData (now : Z) : S unit :=
  tryCatchFinallyS
    (setErrorH None ~>
     setLoadingH true ~>
     tryCatchS
       (wData <~ apiGet "/workouts" (workoutsPage server) ;;
        match wData with
        | None => throwS TypeError
        | Some body =>
            let recent := default [] body in
            setWorkoutsH recent ~>
            setStreakH (Home.calcStreak now recent)
        end)
       (fun workoutErr => setWorkoutsH []) ~>
     tryCatchS
       (fun sc =>
          match user (session sc) with
          | None => throwS TypeError sc
          | Some u =>
              (rData <~ apiGet ("/rankings/user/" ++ showInt (id u))%string
                                (rankingsOf server (id u)) ;;
               setRankingsH (default [] rData)) sc
          end)
       (fun rankingErr => setRankingsH []))
    (fun err =>
       setErrorH (Some "Failed to load data. Pull down to refresh.") ~>
       if bool_decide (statusOf err = Some 401)
       then onSession (logout env) ~> replaceWithLogin
       else retS tt)
    (setLoadingH false ~> setRefreshingH false).

End WithServer.

End HomeLoad.

(* ===================================================================== *)
(** * Part II. Theorems                                                  *)
(* ===================================================================== *)

Module HomeFacts.
Import Home.

Lemma setHours0_mono a b : a <= b -> setHours0 a <= setHours0 b.
Proof.
  intros H. unfold setHours0, MS_PER_DAY.
  rewrite !Z.mod_eq by lia.
  assert (a / 86400000 <= b / 86400000) by (apply Z.div_le_mono; lia).
  lia.
Qed.

(** *** The sort is a descending permutation *)

Lemma insertSorted_perm cmp w l : insertSorted cmp w l ≡ₚ w :: l.
Proof.
  induction l as [|x xs IH]; simpl; [done|].
  destruct (0 <? cmp w x); [|done].
  rewrite IH. apply Permutation_swap.
Qed.

Lemma sort_perm cmp l : sort cmp l ≡ₚ l.
Proof.
  induction l as [|x xs IH]; simpl; [done|].
  unfold sort in *. simpl. rewrite insertSorted_perm. by rewrite IH.
Qed.

Lemma sort_length cmp l : length (sort cmp l) = length l.
Proof. by rewrite sort_perm. Qed.

(** Days never increase along a list. *)
Inductive descending : list Workout -> Prop :=
| desc_nil : descending []
| desc_cons w l :
    Forall (fun x => workout_date x <= workout_date w) l ->
    descending l -> descending (w :: l).

Lemma insertSorted_descending w l :
  descending l -> descending (insertSorted byDateDesc w l).
Proof.
  induction 1 as [|x xs Hx Hd IH]; simpl.
  - constructor; [constructor|constructor].
  - unfold byDateDesc at 1. destruct (Z.ltb_spec 0 (workout_date x - workout_date w)).
    + constructor; [|done].
      rewrite insertSorted_perm. constructor; [lia|done].
    + constructor; [|by constructor].
      constructor; [lia|].
      eapply Forall_impl; [exact Hx|]. simpl. intros; lia.
Qed.

Lemma sort_descending l : descending (sort byDateDesc l).
Proof.
  induction l as [|x xs IH]; [constructor|].
  unfold sort in *. simpl. by apply insertSorted_descending.
Qed.

Lemma hasEntryOn_perm day l l' : l ≡ₚ l' -> hasEntryOn day l -> hasEntryOn day l'.
Proof. intros Hp (w & Hw & Hd). exists w. by rewrite <- Hp. Qed.


(** *** The loop counts the run of consecutive days that starts at the cursor *)

Lemma bump_miss d c acc : d <> c -> bump d (mkCursor c acc) = mkCursor c acc.
Proof. intros H. unfold bump. simpl. by destruct (Z.eqb_spec d c). Qed.

Lemma bump_hit c acc : bump c (mkCursor c acc) = mkCursor (prevDate c) (acc + 1).
Proof. unfold bump. simpl. by rewrite Z.eqb_refl. Qed.

Lemma descending_dayOf w l x :
  descending (w :: l) -> x ∈ l -> dayOf x <= dayOf w.
Proof.
  intros Hd Hx. inversion Hd as [|? ? Hall _]; subst.
  rewrite Forall_forall in Hall. apply setHours0_mono, Hall. done.
Qed.

Lemma loop_run s :
  descending s ->
  forall c acc k,
    0 <= k ->
    (forall i, 0 <= i < k -> hasEntryOn (c - i * MS_PER_DAY) s) ->
    ~ hasEntryOn (c - k * MS_PER_DAY) s ->
    days (fold_left visit s (mkCursor c acc)) = acc + k.
Proof.
  induction s as [|w s IH]; intros Hd c acc k Hk Hrun Hgap; simpl.
  - destruct (Z.eq_dec k 0) as [->|Hne]; [lia|].
    destruct (Hrun 0) as (x & Hx & _); [lia|]. by apply elem_of_nil in Hx.
  - assert (Hd' : descending s) by (by inversion Hd).
    unfold visit at 2. fold (dayOf w).
    destruct (Z.eq_dec (dayOf w) c) as [Heq|Hne].
    + rewrite Heq, bump_hit.
      assert (k <> 0).
      { intros ->. apply Hgap. exists w. split; [left|lia]. }
      replace (acc + k) with ((acc + 1) + (k - 1)) by lia.
      apply IH; [done|lia| |].
      * intros i Hi. destruct (Hrun (i + 1)) as (x & Hx & Hday); [lia|].
        apply elem_of_cons in Hx as [->|Hx].
        { unfold MS_PER_DAY in *. lia. }
        exists x. split; [done|]. unfold prevDate. lia.
      * intros (x & Hx & Hday). apply Hgap. exists x.
        split; [by right|]. unfold prevDate in Hday. lia.
    + rewrite bump_miss by done.
      apply IH; [done|done| |].
      * intros i Hi. destruct (Hrun i) as (x & Hx & Hday); [lia|].
        apply elem_of_cons in Hx as [->|Hx]; [|by exists x].
        (* the head lies on the run but is not the cursor day: then the
           cursor day itself has no entry, against [Hrun 0] *)
        destruct (Hrun 0) as (y & Hy & Hy0); [lia|].
        apply elem_of_cons in Hy as [->|Hy]; [lia|].
        pose proof (descending_dayOf _ _ _ Hd Hy).
        unfold MS_PER_DAY in *. lia.
      * intros (x & Hx & Hday). apply Hgap. exists x. split; [by right|done].
Qed.

Lemma loop_bounds s c acc :
  acc <= days (fold_left visit s (mkCursor c acc)) <= acc + Z.of_nat (length s).
Proof.
  revert c acc. induction s as [|w s IH]; intros c acc; simpl; [lia|].
  unfold visit at 2 4. fold (dayOf w).
  destruct (Z.eq_dec (dayOf w) c) as [Heq|Hne].
  - rewrite Heq, bump_hit. specialize (IH (prevDate c) (acc + 1)). lia.
  - rewrite bump_miss by done. specialize (IH c acc). lia.
Qed.


(** *** [calcStreak] as a whole *)

Lemma daysAgo_0 now : daysAgo now 0 = setHours0 now.
Proof. unfold daysAgo. lia. Qed.

Lemma calcStreak_nil now : calcStreak now [] = 0.
Proof. reflexivity. Qed.

(** On a non-empty list the function reaches the loop with a non-empty
    sorted copy. *)
Lemma calcStreak_unfold now l :
  l <> [] ->
  exists w0 rest,
    sort byDateDesc l = w0 :: rest /\
    calcStreak now l =
      days (fold_left visit (w0 :: rest)
              (if dayOf w0 =? setHours0 now
               then mkCursor (prevDate (setHours0 now)) 1
               else mkCursor (setHours0 now) 0)).
Proof.
  intros Hne. unfold calcStreak.
  destruct l as [|a l]; [done|]. simpl length. simpl Nat.eqb. cbv iota.
  pose proof (sort_length byDateDesc (a :: l)) as Hlen.
  destruct (sort byDateDesc (a :: l)) as [|w0 rest] eqn:E; [done|].
  exists w0, rest. split; [done|]. reflexivity.
Qed.

(** The streak is the length [k] of the run of consecutive calendar days
    that ends today: days [today], [today-1], ..., [today-(k-1)] all have an
    entry and day [today-k] has none. *)
Lemma calcStreak_run now l k :
  0 <= k ->
  (forall i, 0 <= i < k -> hasEntryOn (daysAgo now i) l) ->
  ~ hasEntryOn (daysAgo now k) l ->
  calcStreak now l = k.
Proof.
  intros Hk Hrun Hgap.
  destruct l as [|a l'] eqn:El.
  { destruct (Z.eq_dec k 0) as [->|]; [done|].
    destruct (Hrun 0) as (x & Hx & _); [lia|]. by apply elem_of_nil in Hx. }
  rewrite <- El in *. assert (Hne : l <> []) by (by rewrite El).
  destruct (calcStreak_unfold now l Hne) as (w0 & rest & Hs & ->).
  pose proof (sort_descending l) as Hd. pose proof (sort_perm byDateDesc l) as Hp.
  rewrite Hs in Hd, Hp.
  destruct (Z.eqb_spec (dayOf w0) (setHours0 now)) as [Heq|Hneq].
  - assert (k <> 0).
    { intros ->. apply Hgap. rewrite daysAgo_0. exists w0. split; [|done].
      rewrite <- Hp. left. }
    replace k with (1 + (k - 1)) at 1 by lia.
    apply loop_run; [done|lia| |].
    + intros i Hi. apply (hasEntryOn_perm _ l); [done|].
      destruct (Hrun (i + 1)) as (x & Hx & Hday); [lia|].
      exists x. split; [done|]. unfold daysAgo, prevDate in *. lia.
    + intros Hin. apply Hgap. apply (hasEntryOn_perm _ _ l) in Hin; [|done].
      destruct Hin as (x & Hx & Hday). exists x. split; [done|].
      unfold daysAgo, prevDate in *. lia.
  - replace k with (0 + k) at 1 by lia.
    apply loop_run; [done|done| |].
    + intros i Hi. apply (hasEntryOn_perm _ l); [done|]. by apply Hrun.
    + intros Hin. apply Hgap. by apply (hasEntryOn_perm _ _ l) in Hin.
Qed.


Lemma entryOn_spec day l : entryOn day l = true <-> hasEntryOn day l.
Proof.
  unfold entryOn, hasEntryOn. rewrite existsb_exists. split.
  - intros (w & Hin & Hw). exists w. split; [by apply list_elem_of_In|lia].
  - intros (w & Hin & Hw). exists w. split; [by apply list_elem_of_In|lia].
Qed.

Lemma entryOn_false day l : entryOn day l = false -> ~ hasEntryOn day l.
Proof. intros E H. apply entryOn_spec in H. congruence. Qed.

(** Once the cursor day occurs in the rest of the list the count moves. *)
Lemma loop_hit s c acc :
  hasEntryOn c s -> acc + 1 <= days (fold_left visit s (mkCursor c acc)).
Proof.
  revert acc. induction s as [|w s IH]; intros acc (x & Hx & Hday).
  - by apply elem_of_nil in Hx.
  - simpl. unfold visit at 2. fold (dayOf w).
    destruct (Z.eq_dec (dayOf w) c) as [Heq|Hne].
    + rewrite Heq, bump_hit. apply loop_bounds.
    + rewrite bump_miss by done. apply IH.
      apply elem_of_cons in Hx as [->|Hx]; [done|by exists x].
Qed.

Lemma calcStreak_today now l :
  hasEntryOn (daysAgo now 0) l -> 1 <= calcStreak now l.
Proof.
  intros Hin. rewrite daysAgo_0 in Hin.
  assert (Hne : l <> []).
  { intros ->. destruct Hin as (x & Hx & _). by apply elem_of_nil in Hx. }
  destruct (calcStreak_unfold now l Hne) as (w0 & rest & Hs & ->).
  destruct (Z.eqb_spec (dayOf w0) (setHours0 now)).
  - apply (loop_bounds (w0 :: rest) (prevDate (setHours0 now)) 1).
  - apply (loop_hit (w0 :: rest) (setHours0 now) 0).
    rewrite <- Hs. eapply hasEntryOn_perm; [|exact Hin]. by rewrite sort_perm.
Qed.


(** *** Claims about the streak *)

(** C3, as stated, fails: a list whose only entry is dated yesterday has a
    run of one day ending yesterday and is neither empty nor stale, yet
    [calcStreak] yields 0. *)
Lemma calcStreak_yesterday_counterexample :
  calcStreak sample_now [onDay 1 9 18] = 0 /\
  ~ countsFromYesterday sample_now [onDay 1 9 18] /\
  ~ zeroOnlyWhenStale sample_now [onDay 1 9 18].
Proof.
  split; [reflexivity|]. split.
  - intros Hrun.
    assert (E : calcStreak sample_now [onDay 1 9 18] = 1).
    { apply Hrun.
      - apply entryOn_false. reflexivity.
      - lia.
      - intros i Hi. assert (i = 1) as -> by lia. apply entryOn_spec. reflexivity.
      - apply entryOn_false. reflexivity. }
    vm_compute in E. discriminate.
  - intros Hzero. destruct (Hzero eq_refl) as [E|Hold]; [discriminate|].
    specialize (Hold (onDay 1 9 18) ltac:(left)). vm_compute in Hold. discriminate.
Qed.

(** C3, amended: counting starts from today only.  A list with no entry
    dated today - in particular one whose most recent entry is dated
    yesterday - has streak 0, and the streak is 0 exactly when no entry is
    dated today. *)
Theorem calcStreak_zero_iff_no_entry_today now l :
  (~ hasEntryOn (daysAgo now 0) l -> calcStreak now l = 0) /\
  (calcStreak now l = 0 -> ~ hasEntryOn (daysAgo now 0) l).
Proof.
  split.
  - intros Hno. apply calcStreak_run; [lia| |done]. intros i Hi. lia.
  - intros E Hin. apply calcStreak_today in Hin. lia.
Qed.

Lemma calcStreak_zero_iff_no_entry_today_witness :
  calcStreak sample_now [onDay 1 9 18; onDay 2 8 7] = 0.
Proof.
  apply (calcStreak_zero_iff_no_entry_today sample_now [onDay 1 9 18; onDay 2 8 7]).
  apply entryOn_false. reflexivity.
Defined.



(** C10: the streak is an integer between 0 and the number of entries;
    every entry is counted at most once, and the first sorted entry, when
    the today-check has counted it, is not counted again by the loop. *)
Theorem calcStreak_bounds now l :
  0 <= calcStreak now l <= Z.of_nat (length l).
Proof.
  destruct l as [|a l'] eqn:El; [rewrite calcStreak_nil; simpl; lia|].
  rewrite <- El. assert (Hne : l <> []) by (by rewrite El).
  destruct (calcStreak_unfold now l Hne) as (w0 & rest & Hs & ->).
  rewrite <- (sort_length byDateDesc l), Hs.
  destruct (Z.eqb_spec (dayOf w0) (setHours0 now)) as [Heq|Hneq].
  - (* the today-check fired: the loop skips [w0], whose day is not the cursor *)
    assert (E : visit (mkCursor (prevDate (setHours0 now)) 1) w0
                = mkCursor (prevDate (setHours0 now)) 1).
    { unfold visit. fold (dayOf w0). apply bump_miss.
      unfold prevDate, MS_PER_DAY. lia. }
    simpl fold_left. rewrite E.
    pose proof (loop_bounds rest (prevDate (setHours0 now)) 1).
    simpl length. lia.
  - pose proof (loop_bounds (w0 :: rest) (setHours0 now) 0). lia.
Qed.

End HomeFacts.

Module AuthFacts.
Import Auth.

Ltac run := unfold bind, ret, throw, setUser, setToken, setLoading, setError,
  setDefaultAuthorization, deleteDefaultAuthorization, setStorage; simpl.

(** C1, as stated, fails: a store that holds a token but no user record
    leaves the token set and the user absent after the boot effect. *)
Lemma restore_token_without_user_counterexample :
  token (snd (restore (sampleEnv invalidCredentials Completes)
                      (boot {[ "auth_token" := "tok-1" ]}))) = Some "tok-1" /\
  user (snd (restore (sampleEnv invalidCredentials Completes)
                     (boot {[ "auth_token" := "tok-1" ]}))) = None /\
  ~ paired (snd (restore (sampleEnv invalidCredentials Completes)
                         (boot {[ "auth_token" := "tok-1" ]}))).
Proof.
  split; [reflexivity|]. split; [reflexivity|].
  vm_compute. intros [H _]. destruct H as [x Hx]; [by eexists|]. discriminate.
Qed.


(** C1, amended: the boot effect restores each cell from its own key and
    never compares the two.  When the read completes, the token is set
    exactly when a non-empty token is stored and the user exactly when a
    non-empty user record is stored and parses to a record, so the pair is
    consistent exactly when the store is; when the read fails both stay
    absent.  The loading flag ends false on every path. *)
Theorem restore_session env s :
  loading (snd (restore env (boot s))) = false /\
  storage (snd (restore env (boot s))) = s /\
  (fate env (MultiGet ["auth_token"; "user"]) = Completes ->
   token (snd (restore env (boot s))) = storedToken (boot s) /\
   user (snd (restore env (boot s))) = storedUser env (boot s) /\
   (paired (snd (restore env (boot s))) <->
    (is_Some (storedToken (boot s)) <-> is_Some (storedUser env (boot s))))) /\
  (forall done, fate env (MultiGet ["auth_token"; "user"]) = Fails done ->
   token (snd (restore env (boot s))) = None /\
   user (snd (restore env (boot s))) = None).
Proof.
  unfold restore, tryFinally, tryCatchFinally, multiGet, storedToken, storedUser, paired.
  run.
  destruct (fate env (MultiGet ["auth_token"; "user"])) as [|done'] eqn:Hf; simpl.
  - destruct (Js.truthyOpt (s !! "auth_token")) eqn:Ht;
      destruct (Js.truthyOpt (s !! "user")) eqn:Hu; simpl;
      try destruct (JSON_parse env (default "" (s !! "user"))) eqn:Hp; simpl;
      (split; [done|]); (split; [done|]);
      (split; [intros _; split; [done|split; [done|done]] | intros ? [=]]).
  - split; [done|]. split; [done|]. split; [intros [=]|done].
Qed.

Lemma restore_session_witness :
  token (snd (restore (sampleEnv invalidCredentials Completes)
                      (boot {[ "auth_token" := "tok-1"; "user" := "{bob}" ]})))
    = Some "tok-1" /\
  user (snd (restore (sampleEnv invalidCredentials Completes)
                     (boot {[ "auth_token" := "tok-1"; "user" := "{bob}" ]})))
    = Some (mkUser 7 "{bob}" "ann@example.org").
Proof.
  destruct (restore_session (sampleEnv invalidCredentials Completes)
              {[ "auth_token" := "tok-1"; "user" := "{bob}" ]})
    as (_ & _ & Hok & _).
  destruct (Hok eq_refl) as (Ht & Hu & _).
  rewrite Ht, Hu. split; reflexivity.
Defined.


(** C2, as stated, fails: when [multiRemove] rejects, [logout] rejects too
    and the stored keys, the default header and the session all survive. *)
Lemma logout_storage_failure_counterexample :
  fst (logout (sampleEnv invalidCredentials (Fails [])) sampleSession)
    = Thrown StorageError /\
  token (snd (logout (sampleEnv invalidCredentials (Fails [])) sampleSession))
    = Some "tok-1" /\
  common (snd (logout (sampleEnv invalidCredentials (Fails [])) sampleSession))
    !! "Authorization" = Some "Bearer tok-1" /\
  ~ logoutEndsSession (sampleEnv invalidCredentials (Fails [])) sampleSession.
Proof.
  split; [reflexivity|]. split; [reflexivity|]. split; [vm_compute; reflexivity|].
  intros (H & _). vm_compute in H. discriminate.
Qed.

(** C2, amended: when the storage removal completes, [logout] returns
    normally and leaves no stored token or user, no default Authorization
    header and an empty session; when the removal rejects, [logout]
    rejects with that error (nothing is caught or logged) and the default
    header and the session stay as they were.  The loading flag ends false
    on both paths. *)
Theorem logout_outcome env w :
  loading (snd (logout env w)) = false /\
  (fate env (MultiRemove ["auth_token"; "user"]) = Completes ->
   fst (logout env w) = Returned tt /\
   storage (snd (logout env w)) !! "auth_token" = None /\
   storage (snd (logout env w)) !! "user" = None /\
   common (snd (logout env w)) !! "Authorization" = None /\
   token (snd (logout env w)) = None /\
   user (snd (logout env w)) = None) /\
  (forall done, fate env (MultiRemove ["auth_token"; "user"]) = Fails done ->
   fst (logout env w) = Thrown StorageError /\
   common (snd (logout env w)) = common w /\
   token (snd (logout env w)) = token w /\
   user (snd (logout env w)) = user w).
Proof.
  unfold logout, tryFinally, tryCatchFinally, multiRemove. run.
  destruct (fate env (MultiRemove ["auth_token"; "user"])) as [|done'] eqn:Hf; simpl.
  - split; [done|]. split; [|intros ? [=]]. intros _.
    repeat split.
    + rewrite lookup_delete_ne by done. apply lookup_delete_eq.
    + apply lookup_delete_eq.
    + apply lookup_delete_eq.
  - split; [done|]. split; [intros [=]|]. intros _ _. done.
Qed.

Lemma logout_outcome_witness :
  logoutEndsSession (sampleEnv invalidCredentials Completes) sampleSession.
Proof.
  destruct (logout_outcome (sampleEnv invalidCredentials Completes) sampleSession)
    as (_ & Hok & _).
  exact (Hok eq_refl).
Defined.

(** C4: when the server rejects the credentials, [login] returns
    [{success: false, error: msg}] where [msg] is the text of the [error]
    field of the response body, whatever that text is, as long as it is
    not empty; for the body [{error: "Invalid credentials"}] that is
    "Invalid credentials".  It is "Login failed" when the rejection carries
    no response, no body, no [error] field or an empty one.  Durable
    storage, the default header and the session (token, user) are as
    before the call. *)
Theorem login_rejected_atomic env w email password r :
  post env (API_URL env ++ "/auth/login") email password = Rejected r ->
  (forall st msg, msg <> "" ->
     r = Some (mkResponse st (Some (mkErrorBody (Some msg)))) ->
     fst (login env email password w) = Returned (Failure msg)) /\
  (forall st, r = Some (mkResponse st (Some (mkErrorBody (Some "Invalid credentials")))) ->
     fst (login env email password w) = Returned (Failure "Invalid credentials")) /\
  (r = None \/ (exists st, r = Some (mkResponse st None)) \/
   (exists st, r = Some (mkResponse st (Some (mkErrorBody None)))) \/
   (exists st, r = Some (mkResponse st (Some (mkErrorBody (Some ""))))) ->
     fst (login env email password w) = Returned (Failure "Login failed")) /\
  storage (snd (login env email password w)) = storage w /\
  common (snd (login env email password w)) = common w /\
  token (snd (login env email password w)) = token w /\
  user (snd (login env email password w)) = user w.
Proof.
  intros Hpost.
  unfold login, tryCatchFinally, axios_post. run. rewrite Hpost. run.
  split; [|split; [by intros st ->|]].
  - intros st msg Hmsg ->. simpl. unfold Js.truthy.
    by destruct (String.eqb_spec msg "").
  - split; [|done].
    intros [->|[[st ->]|[[st ->]|[st ->]]]]; done.
Qed.

Lemma login_rejected_atomic_witness :
  fst (login (sampleEnv invalidCredentials Completes) "bob@example.org" "guess"
             sampleSession)
    = Returned (Failure "Invalid credentials") /\
  fst (login (sampleEnv (Rejected (Some (mkResponse 429 (Some (mkErrorBody
                           (Some "Too many attempts")))))) Completes)
             "bob@example.org" "guess" sampleSession)
    = Returned (Failure "Too many attempts") /\
  storage (snd (login (sampleEnv invalidCredentials Completes) "bob@example.org"
                      "guess" sampleSession)) = storage sampleSession.
Proof.
  destruct (login_rejected_atomic (sampleEnv invalidCredentials Completes)
              sampleSession "bob@example.org" "guess"
              (Some (mkResponse 401 (Some (mkErrorBody (Some "Invalid credentials")))))
              eq_refl) as (_ & Hmsg & _ & Hst & _).
  destruct (login_rejected_atomic
              (sampleEnv (Rejected (Some (mkResponse 429 (Some (mkErrorBody
                            (Some "Too many attempts")))))) Completes)
              sampleSession "bob@example.org" "guess"
              (Some (mkResponse 429 (Some (mkErrorBody (Some "Too many attempts")))))
              eq_refl) as (Hany & _).
  split; [exact (Hmsg 401 eq_refl)|].
  split; [exact (Hany 429 "Too many attempts" ltac:(discriminate) eq_refl)|exact Hst].
Defined.


(** C5, as stated, fails: the endpoint returns a token and identity fields
    but the write to durable storage rejects; [login] then reports
    [{success: false, error: "Login failed"}]. *)
Lemma login_storage_failure_counterexample :
  fst (login (sampleEnv (Resolved sampleData) (Fails [])) "ann@example.org" "secret"
             sampleSession) = Returned (Failure "Login failed") /\
  ~ loginSucceeds (sampleEnv (Resolved sampleData) (Fails [])) sampleSession
      "ann@example.org" "secret".
Proof.
  split; [reflexivity|].
  intros H. specialize (H sampleData eq_refl). vm_compute in H. discriminate.
Qed.

(** C5, amended: when the endpoint returns a token and identity fields and
    the write to durable storage completes, [login] returns
    [{success: true}], storage holds the new token and the serialised user
    record, the default Authorization header is "Bearer <token>" and the
    session holds the new pair.  The write comes first: when it rejects,
    [login] returns [{success: false, error: "Login failed"}] and neither
    the default header nor the session has been touched, so success is
    never declared without the persisted pair. *)
Theorem login_resolved env w email password d :
  post env (API_URL env ++ "/auth/login") email password = Resolved d ->
  (fate env (MultiSet [("auth_token", access_token d);
                       ("user", JSON_stringify env
                                  (mkUser (user_id d) (data_username d) email))])
     = Completes ->
   fst (login env email password w) = Returned Success /\
   storage (snd (login env email password w)) !! "auth_token" = Some (access_token d) /\
   storage (snd (login env email password w)) !! "user"
     = Some (JSON_stringify env (mkUser (user_id d) (data_username d) email)) /\
   common (snd (login env email password w)) !! "Authorization"
     = Some ("Bearer " ++ access_token d)%string /\
   token (snd (login env email password w)) = Some (access_token d) /\
   user (snd (login env email password w))
     = Some (mkUser (user_id d) (data_username d) email)) /\
  (forall done,
     fate env (MultiSet [("auth_token", access_token d);
                         ("user", JSON_stringify env
                                    (mkUser (user_id d) (data_username d) email))])
       = Fails done ->
     fst (login env email password w) = Returned (Failure "Login failed") /\
     common (snd (login env email password w)) = common w /\
     token (snd (login env email password w)) = token w /\
     user (snd (login env email password w)) = user w) /\
  (fst (login env email password w) = Returned Success ->
   storage (snd (login env email password w)) !! "auth_token" = Some (access_token d) /\
   storage (snd (login env email password w)) !! "user"
     = Some (JSON_stringify env (mkUser (user_id d) (data_username d) email))).
Proof.
  intros Hpost.
  unfold login, tryCatchFinally, axios_post, multiSet. run. rewrite Hpost. run.
  destruct (fate env _) as [|done'] eqn:Hf; simpl.
  - assert (Htok : (<["user" := JSON_stringify env
                                 (mkUser (user_id d) (data_username d) email)]>
                    (<["auth_token" := access_token d]> (storage w)))
                   !! "auth_token" = Some (access_token d)).
    { rewrite lookup_insert_ne by done. apply lookup_insert_eq. }
    split; [|split; [intros ? [=]|]].
    + intros _. repeat split; try done.
      * apply lookup_insert_eq.
      * apply lookup_insert_eq.
    + intros _. split; [done|]. apply lookup_insert_eq.
  - split; [intros [=]|]. split; [|intros [=]]. intros _ _. done.
Qed.

Lemma login_resolved_witness :
  fst (login (sampleEnv (Resolved sampleData) Completes) "ann@example.org" "secret"
             (boot ∅)) = Returned Success /\
  storage (snd (login (sampleEnv (Resolved sampleData) Completes) "ann@example.org"
                      "secret" (boot ∅))) !! "auth_token" = Some "tok-2".
Proof.
  destruct (login_resolved (sampleEnv (Resolved sampleData) Completes) (boot ∅)
              "ann@example.org" "secret" sampleData eq_refl) as (Hok & _).
  destruct (Hok eq_refl) as (Hr & Ht & _).
  split; [exact Hr|exact Ht].
Defined.

(** C9: every request that goes out through [api] has passed the request
    interceptor, which reads [auth_token] from durable storage at that
    moment; when a (non-empty) token is stored, the outgoing Authorization
    header is "Bearer <token>" with the stored value, whatever the cached
    default header or the in-memory token hold. *)
Theorem request_carries_stored_token env w config t :
  fate env (GetItem "auth_token") = Completes ->
  storage w !! "auth_token" = Some t ->
  t <> "" ->
  request env config w
    = (Returned (mkConfig (url config)
                   (<["Authorization" := ("Bearer " ++ t)%string]> (headers config ∪ common w))),
       w) /\
  (forall c' w', request env config w = (Returned c', w') ->
     headers c' !! "Authorization" = Some ("Bearer " ++ t)%string).
Proof.
  intros Hf Hs Ht.
  assert (E : request env config w
    = (Returned (mkConfig (url config)
                   (<["Authorization" := ("Bearer " ++ t)%string]> (headers config ∪ common w))),
       w)).
  { unfold request, requestInterceptor, getItem, bind. rewrite Hf, Hs. simpl.
    unfold Js.truthy. destruct (String.eqb_spec t ""); [done|]. reflexivity. }
  split; [exact E|].
  intros c' w' E'. rewrite E in E'. injection E' as <- <-. simpl.
  apply lookup_insert_eq.
Qed.

Lemma request_carries_stored_token_witness :
  fst (request (sampleEnv invalidCredentials Completes)
         (mkConfig "/workouts" ∅)
         (mkWorld {[ "auth_token" := "tok-9" ]} {[ "Authorization" := "Bearer tok-1" ]}
                  None (Some "tok-1") false ""))
  = Returned (mkConfig "/workouts"
                (<["Authorization" := "Bearer tok-9"]>
                   (∅ ∪ {[ "Authorization" := "Bearer tok-1" ]}))).
Proof.
  destruct (request_carries_stored_token (sampleEnv invalidCredentials Completes)
              (mkWorld {[ "auth_token" := "tok-9" ]}
                       {[ "Authorization" := "Bearer tok-1" ]}
                       None (Some "tok-1") false "")
              (mkConfig "/workouts" ∅) "tok-9") as (E & _).
  - reflexivity.
  - vm_compute. reflexivity.
  - discriminate.
  - rewrite E. reflexivity.
Defined.

End AuthFacts.

Module CreateWorkoutFacts.
Import CreateWorkout.
Local Open Scope float_scope.
Local Set Warnings "-inexact-float".

(** C8, as stated, fails in the three-condition revision: a form with only
    the name and a form with only an exercise both satisfy one condition,
    yet score 0.33 and 0.34. *)
Lemma three_step_unequal_shares_counterexample :
  ThreeStep.stepsDone nameOnly = 1%nat /\
  ThreeStep.stepsDone exerciseOnly = 1%nat /\
  ThreeStep.calculateProgress nameOnly = 0.33 /\
  ThreeStep.calculateProgress exerciseOnly = 0.34 /\
  ~ equalShares ThreeStep.stepsDone ThreeStep.calculateProgress.
Proof.
  do 4 (split; [reflexivity|]).
  intros H. specialize (H nameOnly exerciseOnly eq_refl).
  apply (f_equal (fun x => PrimFloat.ltb x 0.335)) in H.
  vm_compute in H. discriminate.
Qed.

(** C8, amended: every satisfied condition adds a fixed share: 0.25 each
    in the four-condition revision (equal shares), and 0.33 for the name,
    0.33 for the template and 0.34 for the exercise list in the
    three-condition revision.  In both the total lies in [0,1], no
    condition gives exactly 0 and all conditions give exactly 1; one of
    three conditions gives 0.33 or 0.34. *)
Theorem calculateProgress_shares (f : Form) :
  FourStep.calculateProgress f = shares (FourStep.stepsDone f) 0.25 /\
  ThreeStep.calculateProgress f
    = 0 + (if hasName f then 0.33 else 0) + (if hasTemplate f then 0.33 else 0)
        + (if hasExercises f then 0.34 else 0) /\
  (PrimFloat.leb 0 (FourStep.calculateProgress f)
   && PrimFloat.leb (FourStep.calculateProgress f) 1
   && PrimFloat.leb 0 (ThreeStep.calculateProgress f)
   && PrimFloat.leb (ThreeStep.calculateProgress f) 1)%bool = true /\
  (FourStep.stepsDone f = 0%nat -> FourStep.calculateProgress f = 0) /\
  (FourStep.stepsDone f = 4%nat -> FourStep.calculateProgress f = 1) /\
  (ThreeStep.stepsDone f = 0%nat -> ThreeStep.calculateProgress f = 0) /\
  (ThreeStep.stepsDone f = 3%nat -> ThreeStep.calculateProgress f = 1) /\
  (ThreeStep.stepsDone f = 1%nat ->
   ThreeStep.calculateProgress f = 0.33 \/ ThreeStep.calculateProgress f = 0.34).
Proof.
  unfold FourStep.calculateProgress, ThreeStep.calculateProgress,
    FourStep.stepsDone, ThreeStep.stepsDone.
  destruct (hasName f), (hasTemplate f), (hasExercises f), (hasLoggedSet f);
    vm_compute; repeat split; try discriminate; auto.
Qed.

Lemma calculateProgress_shares_witness :
  ThreeStep.calculateProgress (mkForm "Push day" (Some "push")
                                 [mkEntry "Bench Press" [mkSetEntry "" "" false]]) = 1 /\
  ThreeStep.calculateProgress exerciseOnly = 0.34.
Proof.
  split.
  - apply (calculateProgress_shares
             (mkForm "Push day" (Some "push")
                [mkEntry "Bench Press" [mkSetEntry "" "" false]])).
    reflexivity.
  - destruct (calculateProgress_shares exerciseOnly)
      as (_ & _ & _ & _ & _ & _ & _ & [H|H]); [reflexivity| |exact H].
    vm_compute in H. apply (f_equal (fun x => PrimFloat.ltb x 0.335)) in H.
    vm_compute in H. discriminate.
Defined.

End CreateWorkoutFacts.

Module WorkoutScreenFacts.
Import WorkoutScreen.
Local Open Scope string_scope.

(** *** What [startsWith] and [includes] compute *)

Lemma startsWith_spec s q :
  Js.startsWith s q = true <-> exists post, s = q ++ post.
Proof.
  revert s. induction q as [|a q IH]; intros s; simpl.
  - split; [intros _; by exists s|intros _; by destruct s].
  - destruct s as [|b s]; simpl.
    + split; [done|]. intros (post & [=]).
    + rewrite andb_true_iff, IH, Ascii.eqb_eq. split.
      * intros (-> & post & ->). by exists post.
      * intros (post & [= -> ->]). split; [done|by exists post].
Qed.

Lemma includes_nil q : Js.includes "" q = Js.startsWith "" q.
Proof. destruct q; reflexivity. Qed.

Lemma includes_cons b s q :
  Js.includes (String b s) q = (Js.startsWith (String b s) q || Js.includes s q)%bool.
Proof. reflexivity. Qed.

Lemma includes_spec s q :
  Js.includes s q = true <-> exists pre post, s = pre ++ q ++ post.
Proof.
  induction s as [|b s IH].
  - rewrite includes_nil, startsWith_spec. split.
    + intros (post & E). by exists "", post.
    + intros (pre & post & E). destruct pre as [|c pre]; [by exists post|done].
  - rewrite includes_cons, orb_true_iff, IH, startsWith_spec. split.
    + intros [(post & E)|(pre & post & ->)].
      * by exists "", post.
      * by exists (String b pre), post.
    + intros (pre & post & E). destruct pre as [|c pre]; simpl in E.
      * left. by exists post.
      * right. injection E as -> ->. by exists pre, post.
Qed.

(** *** Containment with case ignored *)

Lemma includes_lowered_containsCI js field q :
  Js.includes (Js.toLowerCase js field) (Js.toLowerCase js q) = true ->
  containsCI js field q.
Proof. intros H. by apply includes_spec in H. Qed.

Lemma containsCI_includes js field q :
  containsCI js field q ->
  Js.includes (Js.toLowerCase js field) (Js.toLowerCase js q) = true.
Proof. intros H. by apply includes_spec. Qed.

Lemma filter_sublist {A} (p : A -> bool) (l : list A) : List.filter p l `sublist_of` l.
Proof.
  induction l as [|x l IH]; simpl; [constructor|].
  destruct (p x); by constructor.
Qed.

Lemma matches_exact js fmt q w :
  matches js fmt (Js.toLowerCase js q) w = true <->
  containsCI js (workout_name w) q
  \/ Js.includes (fmt (workout_date w)) (Js.toLowerCase js q) = true
  \/ exists ex, ex ∈ exercises w /\ containsCI js (ex_name ex) q.
Proof.
  unfold matches. rewrite !orb_true_iff, existsb_exists. split.
  - intros [[H|H]|(ex & Hin & H)].
    + left. by apply includes_lowered_containsCI.
    + right. by left.
    + right. right. exists ex. split; [by apply list_elem_of_In|].
      by apply includes_lowered_containsCI.
  - intros [H|[H|(ex & Hin & H)]].
    + left. left. by apply containsCI_includes.
    + left. by right.
    + right. exists ex. split; [by apply list_elem_of_In|].
      by apply containsCI_includes.
Qed.

(** C7, as stated, fails: a query made of one blank is not empty, yet the
    filter keeps a workout none of whose fields contains a blank. *)
Lemma filter_blank_query_counterexample :
  filterWorkouts Js.asciiBuiltins sampleFormat " " [legDay] = [legDay] /\
  ~ retainedContainQuery Js.asciiBuiltins sampleFormat " " [legDay].
Proof.
  split; [reflexivity|].
  intros H. destruct (H ltac:(discriminate) legDay) as (f & Hf & Hc).
  { vm_compute. left. }
  apply containsCI_includes in Hc.
  apply list_elem_of_In in Hf. simpl in Hf.
  destruct Hf as [<-|[<-|[<-|[]]]]; vm_compute in Hc; discriminate.
Qed.

(** C7, amended: for every workout list and every query that is not blank
    (not empty after [trim]), every retained item has the lower-cased query
    inside its lower-cased name, inside its formatted date as displayed, or
    inside the lower-cased name of one of its exercises - for the name and
    the exercise names the match ignores case; the retained items keep the
    input order; and a blank query returns the full list unchanged, the
    empty query among them since [trim] leaves it empty. *)
Theorem filterWorkouts_sound js fmt q ws :
  (Js.trim js q <> "" ->
   forall w, w ∈ filterWorkouts js fmt q ws ->
     containsCI js (workout_name w) q
     \/ Js.includes (fmt (workout_date w)) (Js.toLowerCase js q) = true
     \/ exists ex, ex ∈ exercises w /\ containsCI js (ex_name ex) q) /\
  filterWorkouts js fmt q ws `sublist_of` ws /\
  (Js.trim js q = "" -> filterWorkouts js fmt q ws = ws) /\
  filterWorkouts js fmt "" ws = ws.
Proof.
  unfold filterWorkouts. split; [|split; [|split]].
  - intros Hq w Hw. destruct (String.eqb_spec (Js.trim js q) ""); [done|].
    apply list_elem_of_In, filter_In in Hw as [_ Hm]. by apply matches_exact.
  - destruct (String.eqb (Js.trim js q) ""); [done|apply filter_sublist].
  - intros ->. reflexivity.
  - by rewrite (Js.trim_empty js).
Qed.

Lemma filterWorkouts_sound_witness :
  (containsCI Js.asciiBuiltins (workout_name legDay) "SQ"
   \/ Js.includes (sampleFormat (workout_date legDay))
                  (Js.toLowerCase Js.asciiBuiltins "SQ") = true
   \/ exists ex, ex ∈ exercises legDay /\ containsCI Js.asciiBuiltins (ex_name ex) "SQ") /\
  filterWorkouts Js.asciiBuiltins sampleFormat "" [legDay] = [legDay].
Proof.
  destruct (filterWorkouts_sound Js.asciiBuiltins sampleFormat "SQ" [legDay])
    as (H & _).
  destruct (filterWorkouts_sound Js.asciiBuiltins sampleFormat "" [legDay])
    as (_ & _ & _ & Hempty).
  split.
  - apply H.
    + vm_compute. discriminate.
    + vm_compute. left.
  - exact Hempty.
Defined.

End WorkoutScreenFacts.

(* ===================================================================== *)
(** * Part III. Further properties of the code                           *)
(* ===================================================================== *)

Module SessionFacts.
Import Auth Registration.

Ltac step := unfold bind, ret, throw, setUser, setToken, setLoading, setError,
  setDefaultAuthorization, deleteDefaultAuthorization, setStorage; simpl.

(** X1: [login] never rejects.  Whatever the server and the device do, it
    returns a result object, the loading flag ends false, and the error
    cell ends empty on success and holds the returned message on failure. *)
Theorem login_always_returns env w email password :
  exists r,
    fst (login env email password w) = Returned r /\
    loading (snd (login env email password w)) = false /\
    error (snd (login env email password w))
      = match r with Success => "" | Failure msg => msg end.
Proof.
  unfold login, tryCatchFinally, axios_post, multiSet. step.
  destruct (post env _ email password) as [d|r]; step.
  - destruct (fate env _) as [|done']; simpl.
    + by exists Success.
    + by exists (Failure "Login failed").
  - by exists (Failure (errorMessage (AxiosError r) "Login failed")).
Qed.

(** X2: [register] on a resolved request whose storage write completes
    returns [{success: true}], stores the token and the serialised record
    built from the server's [user_id] and the caller's own [username] and
    [email], and sets header and session; on a rejected request it returns
    [{success: false, error: msg}] where [msg] is the text of the [error]
    field of the response body when that text is not empty, and
    "Registration failed" when the rejection carries no response, no body,
    no [error] field or an empty one, and it leaves storage, header and
    session as they were. *)
Theorem register_outcome env postForm w username email password dob gender height weight :
  (forall d,
     postForm (API_URL env ++ "/auth/register")%string
       (mkRegisterBody username email password dob gender height weight)
       = RegResolved d ->
     fate env (MultiSet [("auth_token", reg_access_token d);
                         ("user", JSON_stringify env
                                    (mkUser (reg_user_id d) username email))])
       = Completes ->
     fst (register env postForm username email password dob gender height weight w)
       = Returned Success /\
     storage (snd (register env postForm username email password dob gender height weight w))
       !! "auth_token" = Some (reg_access_token d) /\
     storage (snd (register env postForm username email password dob gender height weight w))
       !! "user" = Some (JSON_stringify env (mkUser (reg_user_id d) username email)) /\
     common (snd (register env postForm username email password dob gender height weight w))
       !! "Authorization" = Some ("Bearer " ++ reg_access_token d)%string /\
     token (snd (register env postForm username email password dob gender height weight w))
       = Some (reg_access_token d) /\
     user (snd (register env postForm username email password dob gender height weight w))
       = Some (mkUser (reg_user_id d) username email)) /\
  (forall r,
     postForm (API_URL env ++ "/auth/register")%string
       (mkRegisterBody username email password dob gender height weight)
       = RegRejected r ->
     (forall st msg, msg <> ""%string ->
        r = Some (mkResponse st (Some (mkErrorBody (Some msg)))) ->
        fst (register env postForm username email password dob gender height weight w)
          = Returned (Failure msg)) /\
     (r = None \/ (exists st, r = Some (mkResponse st None)) \/
      (exists st, r = Some (mkResponse st (Some (mkErrorBody None)))) \/
      (exists st, r = Some (mkResponse st (Some (mkErrorBody (Some ""%string))))) ->
      fst (register env postForm username email password dob gender height weight w)
        = Returned (Failure "Registration failed")) /\
     storage (snd (register env postForm username email password dob gender height weight w))
       = storage w /\
     common (snd (register env postForm username email password dob gender height weight w))
       = common w /\
     token (snd (register env postForm username email password dob gender height weight w))
       = token w /\
     user (snd (register env postForm username email password dob gender height weight w))
       = user w).
Proof.
  split.
  - intros d Hpost Hf.
    unfold register, tryCatchFinally, axios_post_form, multiSet. step.
    rewrite Hpost. step. rewrite Hf. simpl.
    repeat split; try done.
    + rewrite lookup_insert_ne by done. apply lookup_insert_eq.
    + apply lookup_insert_eq.
    + apply lookup_insert_eq.
  - intros r Hpost.
    unfold register, tryCatchFinally, axios_post_form. step.
    rewrite Hpost. step. split; [|split; [|done]].
    + intros st msg Hmsg ->. simpl. unfold Js.truthy.
      by destruct (String.eqb_spec msg "").
    + intros [->|[[st ->]|[[st ->]|[st ->]]]]; done.
Qed.

Lemma register_outcome_witness :
  fst (register (sampleEnv invalidCredentials Completes)
         (fun _ _ => RegResolved (mkRegisterData "tok-5" 12))
         "cy" "cy@example.org" "pw" "2000-01-01" "f" "170" "60" (boot ∅))
    = Returned Success /\
  fst (register (sampleEnv invalidCredentials Completes)
         (fun _ _ => RegRejected (Some (mkResponse 409 (Some (mkErrorBody
                                   (Some "Email already registered"%string))))))
         "cy" "cy@example.org" "pw" "2000-01-01" "f" "170" "60" (boot ∅))
    = Returned (Failure "Email already registered") /\
  fst (register (sampleEnv invalidCredentials Completes)
         (fun _ _ => RegRejected None)
         "cy" "cy@example.org" "pw" "2000-01-01" "f" "170" "60" (boot ∅))
    = Returned (Failure "Registration failed").
Proof.
  split; [|split].
  - destruct (register_outcome (sampleEnv invalidCredentials Completes)
                (fun _ _ => RegResolved (mkRegisterData "tok-5" 12)) (boot ∅)
                "cy" "cy@example.org" "pw" "2000-01-01" "f" "170" "60") as (H & _).
    exact (proj1 (H _ eq_refl eq_refl)).
  - destruct (register_outcome (sampleEnv invalidCredentials Completes)
                (fun _ _ => RegRejected (Some (mkResponse 409 (Some (mkErrorBody
                                          (Some "Email already registered"%string))))))
                (boot ∅)
                "cy" "cy@example.org" "pw" "2000-01-01" "f" "170" "60") as (_ & H).
    destruct (H _ eq_refl) as (Hmsg & _).
    exact (Hmsg 409 "Email already registered"%string ltac:(discriminate) eq_refl).
  - destruct (register_outcome (sampleEnv invalidCredentials Completes)
                (fun _ _ => RegRejected None) (boot ∅)
                "cy" "cy@example.org" "pw" "2000-01-01" "f" "170" "60") as (_ & H).
    destruct (H None eq_refl) as (_ & Hmsg & _). exact (Hmsg (or_introl eq_refl)).
Defined.


(** X3: a session created by a successful [login] survives a restart.
    When the write and the later read both complete, the token is not
    empty and the JSON codec round-trips on the stored record, the boot
    effect run on the storage left by [login] restores exactly the token
    and user that [login] put in the session. *)
Theorem login_survives_restart env w email password d :
  post env (API_URL env ++ "/auth/login") email password = Resolved d ->
  fate env (MultiSet [("auth_token", access_token d);
                      ("user", JSON_stringify env
                                 (mkUser (user_id d) (data_username d) email))])
    = Completes ->
  fate env (MultiGet ["auth_token"; "user"]) = Completes ->
  access_token d <> "" ->
  JSON_stringify env (mkUser (user_id d) (data_username d) email) <> "" ->
  JSON_parse env (JSON_stringify env (mkUser (user_id d) (data_username d) email))
    = ParsedUser (mkUser (user_id d) (data_username d) email) ->
  token (snd (restore env (boot (storage (snd (login env email password w))))))
    = token (snd (login env email password w)) /\
  user (snd (restore env (boot (storage (snd (login env email password w))))))
    = user (snd (login env email password w)) /\
  fst (restore env (boot (storage (snd (login env email password w))))) = Returned tt.
Proof.
  intros Hpost Hset Hget Htok Hjson Hparse.
  unfold restore, tryFinally, tryCatchFinally, multiGet. step. rewrite Hget. simpl.
  unfold login, tryCatchFinally, axios_post, multiSet. step.
  rewrite Hpost. step. rewrite Hset. simpl.
  rewrite lookup_insert_eq.
  rewrite lookup_insert_ne by done. rewrite lookup_insert_eq. simpl.
  unfold Js.truthy.
  destruct (String.eqb_spec (access_token d) ""); [done|].
  destruct (String.eqb_spec
              (JSON_stringify env (mkUser (user_id d) (data_username d) email)) "");
    [done|].
  simpl. rewrite Hparse. done.
Qed.

Lemma login_survives_restart_witness :
  token (snd (restore (nameCodecEnv (Resolved sampleData) Completes)
                (boot (storage (snd (login (nameCodecEnv (Resolved sampleData) Completes)
                                       "ann@example.org" "secret" (boot ∅)))))))
    = Some "tok-2".
Proof.
  destruct (login_survives_restart (nameCodecEnv (Resolved sampleData) Completes)
              (boot ∅) "ann@example.org" "secret" sampleData) as (H & _).
  - reflexivity.
  - reflexivity.
  - reflexivity.
  - discriminate.
  - discriminate.
  - reflexivity.
  - rewrite H. reflexivity.
Defined.

(** X4: [logout] is idempotent: when the storage removal completes, a
    second [logout] returns normally and leaves the world exactly as the
    first one left it. *)
Theorem logout_idempotent env w :
  fate env (MultiRemove ["auth_token"; "user"]) = Completes ->
  logout env (snd (logout env w)) = (Returned tt, snd (logout env w)).
Proof.
  intros Hf. unfold logout, tryFinally, tryCatchFinally, multiRemove. step.
  rewrite Hf. simpl. f_equal. f_equal.
  - rewrite (delete_id _ "auth_token").
    + apply delete_id, lookup_delete_eq.
    + rewrite lookup_delete_ne by done. apply lookup_delete_eq.
  - apply delete_id, lookup_delete_eq.
Qed.

Lemma logout_idempotent_witness :
  logout (sampleEnv invalidCredentials Completes)
         (snd (logout (sampleEnv invalidCredentials Completes) sampleSession))
  = (Returned tt, snd (logout (sampleEnv invalidCredentials Completes) sampleSession)).
Proof. apply (logout_idempotent (sampleEnv invalidCredentials Completes)). reflexivity. Defined.

(** X5: after a completed [logout], a request that brings no
    Authorization header of its own goes out without one. *)
Theorem request_after_logout env w config :
  fate env (MultiRemove ["auth_token"; "user"]) = Completes ->
  fate env (GetItem "auth_token") = Completes ->
  headers config !! "Authorization" = None ->
  exists c',
    request env config (snd (logout env w)) = (Returned c', snd (logout env w)) /\
    url c' = url config /\
    headers c' !! "Authorization" = None.
Proof.
  intros Hrm Hget Hcfg.
  unfold request, requestInterceptor, getItem, bind.
  unfold logout, tryFinally, tryCatchFinally, multiRemove. step.
  rewrite Hrm. simpl. rewrite Hget. simpl.
  rewrite lookup_delete_ne by done. rewrite lookup_delete_eq. simpl.
  eexists. split; [reflexivity|]. split; [done|]. simpl.
  apply lookup_union_None. split; [done|apply lookup_delete_eq].
Qed.

Lemma request_after_logout_witness :
  exists c',
    request (sampleEnv invalidCredentials Completes) (mkConfig "/workouts" ∅)
            (snd (logout (sampleEnv invalidCredentials Completes) sampleSession))
    = (Returned c', snd (logout (sampleEnv invalidCredentials Completes) sampleSession)) /\
    url c' = "/workouts" /\
    headers c' !! "Authorization" = None.
Proof.
  apply (request_after_logout (sampleEnv invalidCredentials Completes) sampleSession
           (mkConfig "/workouts" ∅)); reflexivity.
Defined.

(** X6: the interceptor only ever adds a header.  When durable storage
    holds no token (or an empty one), the request goes out with exactly the
    headers of the call merged over the instance defaults, so a default
    Authorization header still cached on the client is sent unchanged. *)
Theorem request_without_stored_token env w config :
  fate env (GetItem "auth_token") = Completes ->
  Js.truthyOpt (storage w !! "auth_token") = false ->
  request env config w
    = (Returned (mkConfig (url config) (headers config ∪ common w)), w) /\
  (forall h, headers config !! "Authorization" = None ->
             common w !! "Authorization" = Some h ->
             (headers config ∪ common w) !! "Authorization" = Some h) /\
  (forall h, headers config !! "Authorization" = Some h ->
             (headers config ∪ common w) !! "Authorization" = Some h).
Proof.
  intros Hget Hfalsy. split; [|split].
  - unfold request, requestInterceptor, getItem, bind. rewrite Hget. simpl.
    rewrite Hfalsy. reflexivity.
  - intros h Hc Hd. rewrite lookup_union_r; done.
  - intros h Hc. by apply lookup_union_Some_l.
Qed.

Lemma request_without_stored_token_witness :
  request (sampleEnv invalidCredentials Completes) (mkConfig "/workouts" ∅)
          (mkWorld ∅ {[ "Authorization" := "Bearer tok-1" ]} None None false "")
  = (Returned (mkConfig "/workouts" (∅ ∪ {[ "Authorization" := "Bearer tok-1" ]})),
     mkWorld ∅ {[ "Authorization" := "Bearer tok-1" ]} None None false "").
Proof.
  destruct (request_without_stored_token (sampleEnv invalidCredentials Completes)
              (mkWorld ∅ {[ "Authorization" := "Bearer tok-1" ]} None None false "")
              (mkConfig "/workouts" ∅)) as (H & _).
  - reflexivity.
  - reflexivity.
  - exact H.
Defined.

(** X7: [login], [register] and [logout] keep the session pair consistent
    on every path: from a world where token and user are both set or both
    absent, each of them ends in such a world, whether it succeeds, fails
    or rejects. *)
Theorem session_pair_preserved env postForm w :
  paired w ->
  (forall email password, paired (snd (login env email password w))) /\
  (forall username email password dob gender height weight,
     paired (snd (register env postForm username email password dob
                           gender height weight w))) /\
  paired (snd (logout env w)).
Proof.
  intros Hp. unfold paired in *. split; [|split].
  - intros email password.
    unfold login, tryCatchFinally, axios_post, multiSet. step.
    destruct (post env _ email password) as [d|r]; step; [|done].
    destruct (fate env _); simpl; [|done].
    split; intros _; by eexists.
  - intros username email password dob gender height weight.
    unfold register, tryCatchFinally, axios_post_form, multiSet. step.
    destruct (postForm _ _) as [d|r]; step; [|done].
    destruct (fate env _); simpl; [|done].
    split; intros _; by eexists.
  - unfold logout, tryFinally, tryCatchFinally, multiRemove. step.
    destruct (fate env _); simpl; [|done].
    split; intros [x [=]].
Qed.

Lemma session_pair_preserved_witness :
  paired (snd (logout (sampleEnv invalidCredentials (Fails [])) sampleSession)).
Proof.
  apply (session_pair_preserved (sampleEnv invalidCredentials (Fails []))
           (fun _ _ => RegRejected None) sampleSession).
  split; intros _; by eexists.
Defined.

(** X8: a stored user record that does not parse makes the boot effect
    reject with the syntax error after the token has already been
    restored: the token is set, the user stays absent, and the loading
    flag still ends false. *)
Theorem restore_malformed_user env s j :
  fate env (MultiGet ["auth_token"; "user"]) = Completes ->
  s !! "user" = Some j ->
  j <> "" ->
  JSON_parse env j = ParseThrows ->
  fst (restore env (boot s)) = Thrown SyntaxError /\
  token (snd (restore env (boot s))) = storedToken (boot s) /\
  user (snd (restore env (boot s))) = None /\
  loading (snd (restore env (boot s))) = false.
Proof.
  intros Hget Hs Hj Hparse.
  unfold restore, tryFinally, tryCatchFinally, multiGet, storedToken. step.
  assert (Ht : Js.truthy j = true).
  { unfold Js.truthy. by destruct (String.eqb_spec j ""). }
  rewrite Hget. simpl. rewrite Hs. simpl. rewrite Ht, Hparse.
  destruct (Js.truthyOpt (s !! "auth_token")); done.
Qed.

Lemma restore_malformed_user_witness :
  fst (restore (sampleEnv invalidCredentials Completes)
               (boot {[ "auth_token" := "tok-1"; "user" := "bob" ]}))
    = Thrown SyntaxError /\
  token (snd (restore (sampleEnv invalidCredentials Completes)
                      (boot {[ "auth_token" := "tok-1"; "user" := "bob" ]})))
    = Some "tok-1".
Proof.
  destruct (restore_malformed_user (sampleEnv invalidCredentials Completes)
              {[ "auth_token" := "tok-1"; "user" := "bob" ]} "bob")
    as (Hr & Ht & _).
  - reflexivity.
  - vm_compute. reflexivity.
  - discriminate.
  - reflexivity.
  - split; [exact Hr|]. rewrite Ht. vm_compute. reflexivity.
Defined.

End SessionFacts.

Module SocialScreenFacts.
Import Auth SocialScreen.

(** X9: the calls of [SocialScreen] pass [authHdr(token)] built from the
    in-memory token.  When durable storage holds a non-empty token, the
    interceptor replaces that header by the stored one; when it holds none,
    the header of the call goes out - "Bearer null" if the session is
    empty - and hides any default header cached on the client. *)
Theorem social_request_header env w u :
  fate env (GetItem "auth_token") = Completes ->
  (forall t, storage w !! "auth_token" = Some t -> t <> "" ->
     exists c',
       request env (mkConfig u (authHdr (token w))) w = (Returned c', w) /\
       headers c' !! "Authorization" = Some ("Bearer " ++ t)%string) /\
  (Js.truthyOpt (storage w !! "auth_token") = false ->
     exists c',
       request env (mkConfig u (authHdr (token w))) w = (Returned c', w) /\
       headers c' !! "Authorization"
         = Some ("Bearer " ++ showToken (token w))%string /\
       (token w = None -> headers c' !! "Authorization" = Some "Bearer null")).
Proof.
  intros Hget. split.
  - intros t Hs Ht.
    unfold request, requestInterceptor, getItem, bind. rewrite Hget, Hs. simpl.
    unfold Js.truthy. destruct (String.eqb_spec t ""); [done|]. simpl.
    eexists. split; [reflexivity|]. simpl. apply lookup_insert_eq.
  - intros Hfalsy.
    unfold request, requestInterceptor, getItem, bind. rewrite Hget. simpl.
    rewrite Hfalsy. eexists. split; [reflexivity|]. simpl.
    assert (E : (authHdr (token w) ∪ common w) !! "Authorization"
                = Some ("Bearer " ++ showToken (token w))%string).
    { apply lookup_union_Some_l. unfold authHdr. apply lookup_singleton_eq. }
    split; [exact E|]. intros Hnone. rewrite E, Hnone. reflexivity.
Qed.

Lemma social_request_header_witness :
  exists c',
    request (sampleEnv invalidCredentials Completes)
            (mkConfig "/social/friends" (authHdr None))
            (mkWorld ∅ {[ "Authorization" := "Bearer tok-1" ]} None None false "")
    = (Returned c',
       mkWorld ∅ {[ "Authorization" := "Bearer tok-1" ]} None None false "") /\
    headers c' !! "Authorization" = Some "Bearer null".
Proof.
  destruct (social_request_header (sampleEnv invalidCredentials Completes)
              (mkWorld ∅ {[ "Authorization" := "Bearer tok-1" ]} None None false "")
              "/social/friends" eq_refl) as (_ & H).
  destruct (H eq_refl) as (c' & Hr & _ & Hnull).
  exists c'. split; [exact Hr|exact (Hnull eq_refl)].
Defined.

(** X10: [timeAgo] reports the largest unit that has fully elapsed: whole
    days once a day has passed, otherwise 1 to 23 whole hours, otherwise 1
    to 59 whole minutes; anything younger than a minute, and any timestamp
    in the future, reads "Just now". *)
Theorem timeAgo_ranges now t :
  match timeAgo now t with
  | DaysAgo d => 1 <= d /\ 86400000 * d <= now - t < 86400000 * (d + 1)
  | HoursAgo h => 1 <= h <= 23 /\ 3600000 * h <= now - t < 3600000 * (h + 1)
  | MinutesAgo m => 1 <= m <= 59 /\ 60000 * m <= now - t < 60000 * (m + 1)
  | JustNow => now - t < 60000
  end.
Proof.
  unfold timeAgo.
  pose proof (Z.div_mod (now - t) 86400000 ltac:(lia)) as Hd.
  pose proof (Z.mod_pos_bound (now - t) 86400000 ltac:(lia)) as Hd'.
  pose proof (Z.div_mod (now - t) 3600000 ltac:(lia)) as Hh.
  pose proof (Z.mod_pos_bound (now - t) 3600000 ltac:(lia)) as Hh'.
  pose proof (Z.div_mod (now - t) 60000 ltac:(lia)) as Hm.
  pose proof (Z.mod_pos_bound (now - t) 60000 ltac:(lia)) as Hm'.
  destruct (Z.ltb_spec 0 ((now - t) / 86400000)); [lia|].
  destruct (Z.ltb_spec 0 ((now - t) / 3600000)); [lia|].
  destruct (Z.ltb_spec 0 ((now - t) / 60000)); lia.
Qed.

End SocialScreenFacts.

Module StreakFacts.
Import Home HomeFacts.

Lemma days_lower_bound (l : list Workout) : exists lb, forall w, w ∈ l -> lb <= dayOf w.
Proof.
  induction l as [|x l [lb IH]].
  - exists 0. intros w Hw. by apply elem_of_nil in Hw.
  - exists (Z.min lb (dayOf x)). intros w Hw.
    apply elem_of_cons in Hw as [->|Hw]; [lia|]. specialize (IH w Hw). lia.
Qed.

(** Going back from today there is a first day without an entry. *)
Lemma run_exists now l :
  exists k, 0 <= k /\
    (forall i, 0 <= i < k -> hasEntryOn (daysAgo now i) l) /\
    ~ hasEntryOn (daysAgo now k) l.
Proof.
  destruct (days_lower_bound l) as [lb Hlb].
  assert (Hscan : forall m : nat,
    (exists k, 0 <= k /\
       (forall i, 0 <= i < k -> hasEntryOn (daysAgo now i) l) /\
       ~ hasEntryOn (daysAgo now k) l)
    \/ (forall i, 0 <= i < Z.of_nat m -> hasEntryOn (daysAgo now i) l)).
  { induction m as [|m [Hfound|Hall]].
    - right. intros i Hi. lia.
    - by left.
    - destruct (entryOn (daysAgo now (Z.of_nat m)) l) eqn:E.
      + right. intros i Hi.
        destruct (Z.eq_dec i (Z.of_nat m)) as [->|]; [by apply entryOn_spec|].
        apply Hall. lia.
      + left. exists (Z.of_nat m). split; [lia|]. split; [done|].
        by apply entryOn_false. }
  set (n := Z.to_nat (Z.max 0 (setHours0 now - lb) + 1)).
  destruct (Hscan (S n)) as [Hfound|Hall]; [done|].
  destruct (Hall (Z.of_nat n)) as (w & Hw & Hday); [lia|].
  specialize (Hlb w Hw). unfold daysAgo, MS_PER_DAY in Hday. subst n. lia.
Qed.


(** X12: the streak depends only on which calendar days have an entry:
    two lists that cover the same days give the same streak, whatever the
    order the server returned them in, the times of day, or the number of
    entries per day. *)
Theorem calcStreak_same_days now l l' :
  (forall day, hasEntryOn day l <-> hasEntryOn day l') ->
  calcStreak now l = calcStreak now l'.
Proof.
  intros Hsame.
  destruct (run_exists now l) as (k & Hk & Hrun & Hgap).
  rewrite (calcStreak_run now l k Hk Hrun Hgap).
  symmetry. apply calcStreak_run; [done| |].
  - intros i Hi. by apply Hsame, Hrun.
  - intros Hin. by apply Hgap, Hsame.
Qed.

Lemma calcStreak_same_days_witness :
  calcStreak sample_now [onDay 1 10 5; onDay 2 9 7]
  = calcStreak sample_now [onDay 3 9 22; onDay 4 10 0; onDay 5 9 1].
Proof.
  apply (calcStreak_same_days sample_now [onDay 1 10 5; onDay 2 9 7]
           [onDay 3 9 22; onDay 4 10 0; onDay 5 9 1]).
  intros day. split; intros (w & Hw & <-);
    apply list_elem_of_In in Hw; simpl in Hw.
  - destruct Hw as [<-|[<-|[]]].
    + exists (onDay 4 10 0). split; [apply list_elem_of_In; simpl; tauto|reflexivity].
    + exists (onDay 3 9 22). split; [apply list_elem_of_In; simpl; tauto|reflexivity].
  - destruct Hw as [<-|[<-|[<-|[]]]].
    + exists (onDay 2 9 7). split; [apply list_elem_of_In; simpl; tauto|reflexivity].
    + exists (onDay 1 10 5). split; [apply list_elem_of_In; simpl; tauto|reflexivity].
    + exists (onDay 2 9 7). split; [apply list_elem_of_In; simpl; tauto|reflexivity].
Defined.

End StreakFacts.

Module WorkoutListFacts.
Import WorkoutScreen WorkoutScreenFacts WorkoutList.
Local Open Scope string_scope.

(** X13: for a query that is not blank (not empty after [trim]) the filter
    keeps exactly the workouts whose name or one of whose exercise names
    contains the query with case ignored, or whose formatted date contains
    the lower-cased query as it stands (the date text itself is not
    lower-cased, so a match through the date is case-sensitive).  This
    holds whatever [toLowerCase] and [trim] do on the texts at hand. *)
Theorem filterWorkouts_exact js fmt q ws w :
  Js.trim js q <> "" ->
  (w ∈ filterWorkouts js fmt q ws <->
   w ∈ ws /\
   (containsCI js (workout_name w) q
    \/ Js.includes (fmt (workout_date w)) (Js.toLowerCase js q) = true
    \/ exists ex, ex ∈ exercises w /\ containsCI js (ex_name ex) q)).
Proof.
  intros Hq. unfold filterWorkouts.
  destruct (String.eqb_spec (Js.trim js q) ""); [done|].
  rewrite list_elem_of_In, filter_In, <- list_elem_of_In, matches_exact. done.
Qed.

Lemma filterWorkouts_exact_witness :
  legDay ∈ filterWorkouts Js.asciiBuiltins sampleFormat "squat" [legDay].
Proof.
  apply (filterWorkouts_exact Js.asciiBuiltins sampleFormat "squat" [legDay] legDay).
  - vm_compute. discriminate.
  - split; [left|]. right. right. exists (mkExercise "Squat").
    split; [left|]. by apply includes_lowered_containsCI.
Defined.

Lemma filter_filter_swap {A} (p q : A -> bool) (l : list A) :
  List.filter p (List.filter q l) = List.filter q (List.filter p l).
Proof.
  induction l as [|x l IH]; simpl; [done|].
  destruct (p x) eqn:Hp, (q x) eqn:Hq; simpl; rewrite ?Hp, ?Hq, IH; done.
Qed.

(** X14: a confirmed delete followed by the filter effect removes every
    workout carrying that id and nothing else: the other workouts stay, in
    their order, and the displayed list is the previously filtered list
    without that id, under the unchanged search query.  When the request
    fails, the state is untouched. *)
Theorem confirmDelete_outcome js fmt workoutId st :
  (forall w, w ∈ workouts (filterEffect js fmt (confirmDelete true workoutId st)) <->
             w ∈ workouts st /\ workout_id w <> workoutId) /\
  workouts (filterEffect js fmt (confirmDelete true workoutId st))
    `sublist_of` workouts st /\
  filteredWorkouts (filterEffect js fmt (confirmDelete true workoutId st))
    = withoutId workoutId (filterWorkouts js fmt (searchQuery st) (workouts st)) /\
  searchQuery (filterEffect js fmt (confirmDelete true workoutId st)) = searchQuery st /\
  confirmDelete false workoutId st = st.
Proof.
  simpl. split; [|split; [|split; [|done]]].
  - intros w. unfold withoutId.
    rewrite list_elem_of_In, filter_In, <- list_elem_of_In, negb_true_iff, Z.eqb_neq.
    done.
  - apply filter_sublist.
  - unfold filterWorkouts, withoutId.
    destruct (String.eqb (Js.trim js (searchQuery st)) ""); [done|].
    apply filter_filter_swap.
Qed.

End WorkoutListFacts.

Module LeaderboardFacts.
Import WorkoutScreen WorkoutScreenFacts Leaderboard.
Local Open Scope string_scope.

(** X15: for a query that is not blank (not empty after [trim]) the
    leaderboard filter keeps exactly the entries whose lower-cased user
    name contains the lower-cased query, in their order; a blank query
    keeps the whole leaderboard.  This holds whatever [toLowerCase] and
    [trim] do on the texts at hand. *)
Theorem filterLeaderboard_exact js q l :
  (Js.trim js q <> "" ->
   forall e, e ∈ filterLeaderboard js q l <-> e ∈ l /\ containsCI js (username e) q) /\
  filterLeaderboard js q l `sublist_of` l /\
  (Js.trim js q = "" -> filterLeaderboard js q l = l).
Proof.
  unfold filterLeaderboard. split; [|split].
  - intros Hq e. destruct (String.eqb_spec (Js.trim js q) ""); [done|].
    rewrite list_elem_of_In, filter_In, <- list_elem_of_In. split.
    + intros [He Hm]. split; [done|by apply includes_lowered_containsCI].
    + intros [He Hc]. split; [done|by apply containsCI_includes].
  - destruct (String.eqb (Js.trim js q) ""); [done|apply filter_sublist].
  - intros ->. reflexivity.
Qed.

Lemma filterLeaderboard_exact_witness :
  mkEntry 4 "MaxPower" "Gold" 30
    ∈ filterLeaderboard Js.asciiBuiltins "POW"
        [mkEntry 3 "ann" "Silver" 25; mkEntry 4 "MaxPower" "Gold" 30].
Proof.
  destruct (filterLeaderboard_exact Js.asciiBuiltins "POW"
              [mkEntry 3 "ann" "Silver" 25; mkEntry 4 "MaxPower" "Gold" 30]) as (H & _).
  apply H.
  - vm_compute. discriminate.
  - split; [right; left|]. by apply includes_lowered_containsCI.
Defined.

End LeaderboardFacts.

Module AvatarFacts.
Import Avatar.
Local Open Scope string_scope.

Lemma arrayIncludes_spec l x : arrayIncludes l x = true <-> x ∈ l.
Proof.
  unfold arrayIncludes. rewrite existsb_exists, list_elem_of_In. split.
  - intros (y & Hy & E). apply String.eqb_eq in E. by subst.
  - intros Hx. exists x. split; [done|apply String.eqb_refl].
Qed.

Lemma removed_spec (a b : string) l :
  b ∈ List.filter (fun item => negb (String.eqb item a)) l <-> b ∈ l /\ b <> a.
Proof.
  rewrite list_elem_of_In, filter_In, <- list_elem_of_In, negb_true_iff, String.eqb_neq.
  done.
Qed.

(** X16: [handleAccessoryToggle] flips exactly one membership: the toggled
    accessory is selected afterwards if and only if it was not before,
    every other accessory keeps its status, a selection without repeats
    stays without repeats, and the five single-choice options are not
    touched. *)
Theorem handleAccessoryToggle_flips a o :
  (a ∈ accessories (handleAccessoryToggle a o) <-> a ∉ accessories o) /\
  (forall b, b <> a ->
     (b ∈ accessories (handleAccessoryToggle a o) <-> b ∈ accessories o)) /\
  (NoDup (accessories o) -> NoDup (accessories (handleAccessoryToggle a o))) /\
  withAccessories (accessories o) (handleAccessoryToggle a o) = o.
Proof.
  unfold handleAccessoryToggle.
  destruct (arrayIncludes (accessories o) a) eqn:E; simpl.
  - apply arrayIncludes_spec in E. split; [|split; [|split]].
    + rewrite removed_spec. split; [by intros [_ Hne]|done].
    + intros b Hb. rewrite removed_spec. split; [by intros [Hin _]|done].
    + intros Hnd. apply NoDup_ListNoDup, List.NoDup_filter, NoDup_ListNoDup, Hnd.
    + by destruct o.
  - assert (Hn : a ∉ accessories o).
    { intros Hin. apply arrayIncludes_spec in Hin. congruence. }
    split; [|split; [|split]].
    + split; [done|]. intros _. apply elem_of_app. right. left.
    + intros b Hb. rewrite elem_of_app, list_elem_of_singleton.
      split; [by intros [Hin|Heq]|by left].
    + intros Hnd. apply NoDup_app. split; [done|]. split.
      * intros x Hx Hx'. apply list_elem_of_singleton in Hx'. by subst.
      * apply NoDup_singleton.
    + by destruct o.
Qed.

Lemma handleAccessoryToggle_flips_witness :
  NoDup (accessories (handleAccessoryToggle "hat"
                        (mkOptions "slim" "short" "black" "tan" "casual" ["watch"; "hat"]))).
Proof.
  apply (handleAccessoryToggle_flips "hat"
           (mkOptions "slim" "short" "black" "tan" "casual" ["watch"; "hat"])).
  simpl. apply NoDup_cons. split.
  - intros H. apply list_elem_of_singleton in H. discriminate.
  - apply NoDup_singleton.
Defined.

Lemma orElse_chosen x fallback : fallback <> "" -> orElse x fallback <> "".
Proof.
  intros Hf. unfold orElse. destruct x as [s|]; simpl; [|done].
  unfold Js.truthy. by destruct (String.eqb_spec s "").
Qed.

(** X17: every single-choice category keeps a selection.  Starting from
    the initial options, [loadAvatar] (whatever the server answers, fields
    missing or empty included), [handleAccessoryToggle] and
    [handleOptionSelect] with a non-empty value all lead to options where
    body type, hair style, hair colour, skin tone and outfit are
    non-empty. *)
Theorem avatar_options_always_chosen :
  allChosen initialOptions /\
  (forall reply st, allChosen (selectedOptions st) ->
                    allChosen (selectedOptions (loadAvatar reply st))) /\
  (forall a o, allChosen o -> allChosen (handleAccessoryToggle a o)) /\
  (forall c v o, v <> "" -> allChosen o -> allChosen (handleOptionSelect c v o)).
Proof.
  split; [by repeat split|]. split; [|split].
  - intros [[d|]|status] st H; simpl; [|done|by destruct (bool_decide _)].
    repeat split; by apply orElse_chosen.
  - intros a o H. unfold handleAccessoryToggle.
    by destruct (arrayIncludes _ _).
  - intros c v o Hv (H1 & H2 & H3 & H4 & H5). by destruct c; repeat split.
Qed.

Lemma avatar_options_always_chosen_witness :
  allChosen (selectedOptions
    (loadAvatar (AvatarResolved (Some (mkAvatarData None (Some "") (Some "red") None None None)))
       (mkState true false None initialOptions None))).
Proof.
  destruct avatar_options_always_chosen as (H0 & Hload & _).
  apply Hload. exact H0.
Defined.

End AvatarFacts.

Module EditorFacts.
Import CreateWorkout Editor.
Local Open Scope string_scope.

Lemma withSets_same `{EqDecision Id} (e : Draft Id) : withSets e (draft_sets e) = e.
Proof. by destruct e. Qed.

Lemma map_pointwise_id {A} (f : A -> A) (l : list A) :
  (forall x, x ∈ l -> f x = x) -> List.map f l = l.
Proof.
  induction l as [|x l IH]; intros Hf; simpl; [done|].
  rewrite Hf by left. rewrite IH; [done|]. intros y Hy. apply Hf. by right.
Qed.

(** X18: [toggleSetCompletion] is its own inverse: toggling the same set
    of the same exercise twice gives back the list of exercises exactly,
    for every id and index (out of range included). *)
Theorem toggleSetCompletion_involutive `{EqDecision Id} (exerciseId : Id)
        (setIndex : nat) (exercises : list (Draft Id)) :
  toggleSetCompletion exerciseId setIndex
    (toggleSetCompletion exerciseId setIndex exercises) = exercises.
Proof.
  unfold toggleSetCompletion. rewrite map_map. apply map_pointwise_id.
  intros e _. destruct (bool_decide (draft_id e = exerciseId)) eqn:E; simpl; rewrite E; [|done].
  unfold withSets. simpl. destruct e as [i n ic c ss]. simpl. f_equal.
  apply list_eq. intros k. rewrite !list_lookup_imap.
  destruct (ss !! k) as [[w r done']|]; simpl; [|done].
  destruct (k =? setIndex)%nat; simpl; [|done]. by rewrite negb_involutive.
Qed.

(** X19: [updateSet] writes one field of one set and nothing else.  For
    the exercise carrying the id, the set at the index holds the new value
    in the field written ([weight] or [reps]) and keeps its other field and
    its completion flag; the other sets, the number of sets and the other
    fields of the exercise are unchanged; exercises with another id are
    unchanged; and when no exercise carries the id, or the index is beyond
    the sets of those that do, the list is returned as it was. *)
Theorem updateSet_spec `{EqDecision Id} (exerciseId : Id) (setIndex : nat)
        (field : Field) (value : string) (exercises : list (Draft Id)) :
  (forall p e, exercises !! p = Some e -> draft_id e <> exerciseId ->
     updateSet exerciseId setIndex field value exercises !! p = Some e) /\
  (forall p e, exercises !! p = Some e -> draft_id e = exerciseId ->
     exists e',
       updateSet exerciseId setIndex field value exercises !! p = Some e' /\
       draft_id e' = draft_id e /\ draft_name e' = draft_name e /\
       draft_icon e' = draft_icon e /\ draft_category e' = draft_category e /\
       length (draft_sets e') = length (draft_sets e) /\
       (forall s, draft_sets e !! setIndex = Some s ->
          exists s',
            draft_sets e' !! setIndex = Some s' /\
            weight s' = match field with FWeight => value | FReps => weight s end /\
            reps s' = match field with FWeight => reps s | FReps => value end /\
            completed s' = completed s) /\
       (forall j, j <> setIndex -> draft_sets e' !! j = draft_sets e !! j)) /\
  ((forall e, e ∈ exercises -> draft_id e = exerciseId ->
      length (draft_sets e) <= setIndex)%nat ->
   updateSet exerciseId setIndex field value exercises = exercises).
Proof.
  unfold updateSet. split; [|split].
  - intros p e Hp Hne. rewrite list_lookup_fmap, Hp. simpl.
    by rewrite bool_decide_eq_false_2.
  - intros p e Hp Heq. rewrite list_lookup_fmap, Hp. simpl.
    rewrite bool_decide_eq_true_2 by done.
    eexists. split; [reflexivity|]. simpl. do 4 (split; [done|]).
    split; [apply length_imap|]. split.
    + intros s Hs. rewrite list_lookup_imap, Hs. simpl. rewrite Nat.eqb_refl.
      eexists. split; [reflexivity|]. by destruct field.
    + intros j Hj. rewrite list_lookup_imap.
      destruct (draft_sets e !! j); simpl; [|done].
      by destruct (Nat.eqb_spec j setIndex).
  - intros Hout. apply map_pointwise_id. intros e He.
    destruct (bool_decide (draft_id e = exerciseId)) eqn:E; [|done].
    apply bool_decide_eq_true_1 in E. specialize (Hout e He E).
    transitivity (withSets e (draft_sets e)); [|apply withSets_same]. f_equal.
    apply list_eq. intros k. rewrite list_lookup_imap.
    destruct (draft_sets e !! k) as [s|] eqn:Hk; simpl; [|done].
    apply lookup_lt_Some in Hk.
    destruct (Nat.eqb_spec k setIndex); [lia|done].
Qed.

Lemma updateSet_spec_witness :
  exists e' s',
    updateSet (Id := Z) 7 1 FReps "12"
      [mkDraft 8 "Plank" "minus" "Core" [];
       mkDraft 7 "Squat" "run" "Legs" [blankSet; mkSetEntry "60" "" true]] !! 1%nat
      = Some e' /\
    draft_sets e' !! 1%nat = Some s' /\
    weight s' = "60" /\ reps s' = "12" /\ completed s' = true /\
    draft_sets e' !! 0%nat = Some blankSet.
Proof.
  destruct (updateSet_spec (Id := Z) 7 1 FReps "12"
              [mkDraft 8 "Plank" "minus" "Core" [];
               mkDraft 7 "Squat" "run" "Legs" [blankSet; mkSetEntry "60" "" true]])
    as (_ & Hsame & _).
  destruct (Hsame 1%nat (mkDraft 7 "Squat" "run" "Legs" [blankSet; mkSetEntry "60" "" true])
              eq_refl eq_refl)
    as (e' & He' & _ & _ & _ & _ & _ & Hset & Hother).
  destruct (Hset (mkSetEntry "60" "" true) eq_refl) as (s' & Hs' & Hw & Hr & Hc).
  exists e', s'. repeat split; try assumption.
  rewrite (Hother 0%nat) by discriminate. reflexivity.
Defined.

Lemma filterIndexed_drop_last {A} (k : nat) (l : list A) (x : A) :
  filterIndexed (fun i _ => negb (i =? k + length l)%nat) k (l ++ [x]) = l.
Proof.
  revert k. induction l as [|y l IH]; intros k; simpl.
  - by rewrite Nat.add_0_r, Nat.eqb_refl.
  - destruct (Nat.eqb_spec k (k + S (length l))); [lia|]. simpl. f_equal.
    replace (k + S (length l))%nat with (S k + length l)%nat by lia. apply IH.
Qed.

Lemma filterIndexed_length {A} (p : nat -> A -> bool) (k : nat) (l : list A) :
  (length (filterIndexed p k l) <= length l)%nat.
Proof.
  revert k. induction l as [|y l IH]; intros k; simpl; [lia|].
  specialize (IH (S k)). destruct (p k y); simpl; lia.
Qed.

(** X20: in the second revision of the screen, [addSet] appends one blank
    set to every exercise carrying the id and changes nothing else, and
    [removeSet] at the index of that new set undoes it: when the exercises
    carrying the id all have [n] sets, removing set [n] after adding a set
    gives back the original list.  Neither operation changes the number of
    exercises, and [removeSet] never grows a list of sets. *)
Theorem addSet_removeSet `{EqDecision Id} (exerciseId : Id) (n : nat)
        (exercises : list (Draft Id)) :
  length (addSet exerciseId exercises) = length exercises /\
  length (removeSet exerciseId n exercises) = length exercises /\
  (forall p e, exercises !! p = Some e ->
     exists e', addSet exerciseId exercises !! p = Some e' /\
       draft_sets e' = (if bool_decide (draft_id e = exerciseId)
                        then (draft_sets e ++ [blankSet])%list else draft_sets e)) /\
  (forall p e, exercises !! p = Some e ->
     exists e', removeSet exerciseId n exercises !! p = Some e' /\
       (length (draft_sets e') <= length (draft_sets e))%nat) /\
  ((forall e, e ∈ exercises -> draft_id e = exerciseId -> length (draft_sets e) = n) ->
   removeSet exerciseId n (addSet exerciseId exercises) = exercises).
Proof.
  unfold addSet, removeSet. split; [|split; [|split; [|split]]].
  - apply length_map.
  - apply length_map.
  - intros p e Hp. rewrite list_lookup_fmap, Hp. simpl.
    eexists. split; [reflexivity|]. by destruct (bool_decide _).
  - intros p e Hp. rewrite list_lookup_fmap, Hp. simpl.
    eexists. split; [reflexivity|].
    destruct (bool_decide _); simpl; [apply filterIndexed_length|done].
  - intros Hn. rewrite map_map. apply map_pointwise_id. intros e He.
    destruct (bool_decide (draft_id e = exerciseId)) eqn:E; simpl; rewrite E; [|done].
    apply bool_decide_eq_true_1 in E. specialize (Hn e He E).
    transitivity (withSets e (draft_sets e)); [|apply withSets_same].
    unfold withSets. simpl. f_equal. rewrite <- Hn.
    apply (filterIndexed_drop_last 0).
Qed.

Lemma addSet_removeSet_witness :
  removeSet (Id := Z) 7 1
    (addSet 7 [mkDraft 7 "Squat" "run" "Legs" [mkSetEntry "60" "5" true];
               mkDraft 8 "Plank" "minus" "Core" []])
  = [mkDraft 7 "Squat" "run" "Legs" [mkSetEntry "60" "5" true];
     mkDraft 8 "Plank" "minus" "Core" []].
Proof.
  apply (addSet_removeSet (Id := Z) 7 1
           [mkDraft 7 "Squat" "run" "Legs" [mkSetEntry "60" "5" true];
            mkDraft 8 "Plank" "minus" "Core" []]).
  intros e He Hid. apply list_elem_of_In in He. simpl in He.
  destruct He as [<-|[<-|[]]]; [reflexivity|discriminate].
Defined.

Lemma removeExercise_fresh `{EqDecision Id} (id : Id) (l : list (Draft Id)) :
  (forall e, e ∈ l -> draft_id e <> id) -> removeExercise id l = l.
Proof.
  unfold removeExercise. induction l as [|e l IH]; intros Hfresh; simpl; [done|].
  rewrite bool_decide_eq_false_2 by (apply Hfresh; left). simpl. f_equal.
  apply IH. intros x Hx. apply Hfresh. by right.
Qed.

(** X21: in the second revision of the screen, [removeExercise] drops
    every exercise carrying the id and keeps the others in order.  Removing
    the id just given to [addExercise] always gives what removing it from
    the old list gives, so it undoes the addition exactly when the id was
    fresh; if the clock handed out an id already in use, the older exercise
    with that id is removed too. *)
Theorem removeExercise_addExercise `{EqDecision Id} (newId : Id)
        (exercise : CatalogExercise) (category : string) (exercises : list (Draft Id)) :
  (forall id e, e ∈ removeExercise id exercises <-> e ∈ exercises /\ draft_id e <> id) /\
  (forall id, removeExercise id exercises `sublist_of` exercises) /\
  removeExercise newId (addExercise newId exercise category exercises)
    = removeExercise newId exercises /\
  ((forall e, e ∈ exercises -> draft_id e <> newId) ->
   removeExercise newId (addExercise newId exercise category exercises) = exercises).
Proof.
  assert (Hadd : removeExercise newId (addExercise newId exercise category exercises)
                 = removeExercise newId exercises).
  { unfold removeExercise, addExercise. rewrite List.filter_app. simpl.
    rewrite bool_decide_eq_true_2 by done. simpl. apply app_nil_r. }
  split; [|split; [|split]].
  - intros id e. unfold removeExercise.
    rewrite list_elem_of_In, filter_In, <- list_elem_of_In, negb_true_iff.
    rewrite bool_decide_eq_false. done.
  - intros id. apply WorkoutScreenFacts.filter_sublist.
  - exact Hadd.
  - intros Hfresh. rewrite Hadd. by apply removeExercise_fresh.
Qed.

Lemma removeExercise_addExercise_witness :
  removeExercise (Id := string) "1700000000001"
    (addExercise "1700000000001" (mkCatalogExercise "Plank" "minus" "Isometric core")
       "Core" [mkDraft "1700000000000" "Squat" "run" "Legs" [blankSet]])
  = [mkDraft "1700000000000" "Squat" "run" "Legs" [blankSet]].
Proof.
  apply (removeExercise_addExercise (Id := string) "1700000000001"
           (mkCatalogExercise "Plank" "minus" "Isometric core") "Core"
           [mkDraft "1700000000000" "Squat" "run" "Legs" [blankSet]]).
  intros e He. apply list_elem_of_singleton in He. subst e. discriminate.
Defined.


(** X22: in the four-condition wizard the logged-set share is never earned
    without the exercise share: a form with a set whose weight and reps are
    both filled in has at least one exercise, so its progress is at least
    0.5. *)
Theorem logged_set_implies_exercises (f : Form) :
  hasLoggedSet f = true ->
  hasExercises f = true /\
  PrimFloat.leb 0.5 (FourStep.calculateProgress f) = true.
Proof.
  intros Hlog.
  assert (Hex : hasExercises f = true).
  { unfold hasLoggedSet, hasExercises in *.
    destruct (CreateWorkout.exercises f); [discriminate|reflexivity]. }
  split; [exact Hex|].
  unfold FourStep.calculateProgress. rewrite Hlog, Hex.
  destruct (hasName f), (hasTemplate f); reflexivity.
Qed.

Lemma logged_set_implies_exercises_witness :
  PrimFloat.leb 0.5
    (FourStep.calculateProgress
       (mkForm "" None [mkEntry "Squat" [mkSetEntry "60" "5" false]])) = true.
Proof.
  apply (logged_set_implies_exercises
           (mkForm "" None [mkEntry "Squat" [mkSetEntry "60" "5" false]])).
  reflexivity.
Defined.

(** X23: typing a weight and then the reps into one set of an exercise
    earns the logged-set condition of the progress bar: after the two
    [updateSet] calls with non-empty values, [calculateProgress] sees a
    logged set, whatever else the form holds. *)
Theorem filling_a_set_logs_it `{EqDecision Id} (exerciseId : Id) (setIndex p : nat)
        (w r : string) (name : string) (tpl : option string)
        (exercises : list (Draft Id)) (e : Draft Id) (s : SetEntry) :
  exercises !! p = Some e ->
  draft_id e = exerciseId ->
  draft_sets e !! setIndex = Some s ->
  w <> "" -> r <> "" ->
  hasLoggedSet
    (formOf name tpl
       (updateSet exerciseId setIndex FReps r
          (updateSet exerciseId setIndex FWeight w exercises))) = true.
Proof.
  intros Hp Hid Hs Hw Hr.
  unfold hasLoggedSet, formOf. simpl. apply existsb_exists.
  set (upd := fun f v (ss : list SetEntry) =>
                imap (fun i s => if (i =? setIndex)%nat then setField f v s else s) ss).
  exists (toEntry (withSets e (upd FReps r (upd FWeight w (draft_sets e))))).
  split.
  - apply in_map, list_elem_of_In, (list_elem_of_lookup_2 _ p).
    unfold updateSet. rewrite !list_lookup_fmap, Hp. simpl.
    rewrite (bool_decide_eq_true_2 (draft_id e = exerciseId)) by done. simpl.
    rewrite (bool_decide_eq_true_2 (draft_id e = exerciseId)) by done. reflexivity.
  - simpl. apply existsb_exists. exists (mkSetEntry w r (completed s)). split.
    + apply list_elem_of_In, (list_elem_of_lookup_2 _ setIndex).
      unfold upd. rewrite !list_lookup_imap, Hs. simpl.
      by rewrite Nat.eqb_refl.
    + simpl. unfold Js.truthy.
      destruct (String.eqb_spec w ""), (String.eqb_spec r ""); done.
Qed.

Lemma filling_a_set_logs_it_witness :
  hasLoggedSet
    (formOf "" None
       (updateSet (Id := Z) 7 0 FReps "5"
          (updateSet 7 0 FWeight "60" [mkDraft 7 "Squat" "run" "Legs" [blankSet]])))
  = true.
Proof.
  apply (filling_a_set_logs_it (Id := Z) 7 0 0 "60" "5" "" None
           [mkDraft 7 "Squat" "run" "Legs" [blankSet]]
           (mkDraft 7 "Squat" "run" "Legs" [blankSet]) blankSet);
    try reflexivity; discriminate.
Defined.

Lemma concat_pairs_length {A} (cats : list string) (pick : string -> list A) :
  (forall c, length (pick c) <= 2)%nat ->
  (length (List.concat (List.map (fun cat => List.map (fun ex => (cat, ex)) (pick cat))
                                 cats))
   <= 2 * length cats)%nat.
Proof.
  intros Hpick. induction cats as [|c cats IH]; simpl; [lia|].
  rewrite length_app, length_map. specialize (Hpick c). lia.
Qed.

Lemma template_pairs_membership {A} (cats : list string) (pick : string -> list A)
      (cat : string) (x : A) :
  (cat, x) ∈ List.concat (List.map (fun c => List.map (fun ex => (c, ex)) (pick c)) cats)
  <-> cat ∈ cats /\ x ∈ pick cat.
Proof.
  rewrite list_elem_of_In, in_concat. split.
  - intros (l & Hl & Hin). apply in_map_iff in Hl as (c & <- & Hc).
    apply in_map_iff in Hin as (y & [= <- <-] & Hy).
    split; by apply list_elem_of_In.
  - intros [Hc Hx]. exists (List.map (fun ex => (cat, ex)) (pick cat)). split.
    + apply in_map_iff. exists cat. split; [done|by apply list_elem_of_In].
    + apply in_map_iff. exists x. split; [done|by apply list_elem_of_In].
Qed.

(** X24: in the second revision of the screen, choosing a template makes
    its id the selected template and replaces the exercises.  For a template other than "custom" the new
    exercises are built from the first two catalogue exercises of each
    category of the template and from nothing else: every new exercise
    carries the id drawn at its position, one blank set, a category of the
    template and the name and icon of one of the first two exercises the
    catalogue lists for that category; and each of those catalogue
    exercises is there.  So there are at most two per category, and a
    category missing from the catalogue contributes nothing.  The "custom"
    template leaves no exercise at all. *)
Theorem handleTemplateSelect_spec `{EqDecision Id} (catalog : Catalog)
        (idAt : nat -> Id) (template : Template) :
  fst (handleTemplateSelect catalog idAt template) = Some (template_id template) /\
  (length (snd (handleTemplateSelect catalog idAt template))
   <= 2 * length (categories template))%nat /\
  (forall k e, snd (handleTemplateSelect catalog idAt template) !! k = Some e ->
     draft_id e = idAt k /\ draft_sets e = [blankSet] /\
     draft_category e ∈ categories template /\
     exists all ce,
       categoryExercises catalog (draft_category e) = Some all /\
       ce ∈ take 2 all /\
       draft_name e = cat_name ce /\ draft_icon e = cat_icon ce) /\
  (template_id template <> "custom" ->
   forall cat all ce,
     cat ∈ categories template ->
     categoryExercises catalog cat = Some all ->
     ce ∈ take 2 all ->
     exists e, e ∈ snd (handleTemplateSelect catalog idAt template) /\
               draft_name e = cat_name ce /\ draft_icon e = cat_icon ce /\
               draft_category e = cat) /\
  (template_id template = "custom" ->
   snd (handleTemplateSelect catalog idAt template) = []).
Proof.
  unfold handleTemplateSelect. simpl.
  split; [done|]. split; [|split; [|split]].
  - destruct (negb (template_id template =? "custom")); simpl; [|lia].
    unfold templateExercises. rewrite length_imap.
    apply concat_pairs_length. intros c. rewrite length_take. lia.
  - intros k e Hk.
    destruct (negb (template_id template =? "custom")); [|done].
    unfold templateExercises in Hk. rewrite list_lookup_imap in Hk.
    destruct (_ !! k) as [[cat ce]|] eqn:Hpair; simpl in Hk; [|done].
    injection Hk as <-. simpl.
    apply list_elem_of_lookup_2, template_pairs_membership in Hpair as [Hcat Hce].
    split; [done|]. split; [done|]. split; [done|].
    destruct (categoryExercises catalog cat) as [all|]; simpl in Hce.
    + by exists all, ce.
    + by apply elem_of_nil in Hce.
  - intros Hne cat all ce Hcat Hall Hce.
    destruct (String.eqb_spec (template_id template) "custom"); [done|]. simpl.
    assert (Hpair : (cat, ce) ∈ List.concat
                      (List.map (fun c => List.map (fun ex => (c, ex))
                                   (take 2 (default [] (categoryExercises catalog c))))
                                (categories template))).
    { apply template_pairs_membership. split; [done|]. by rewrite Hall. }
    apply list_elem_of_lookup in Hpair as [k Hk].
    exists (mkDraft (idAt k) (cat_name ce) (cat_icon ce) cat [blankSet]).
    split; [|done]. apply (list_elem_of_lookup_2 _ k).
    unfold templateExercises. rewrite list_lookup_imap, Hk. reflexivity.
  - intros ->. reflexivity.
Qed.

Lemma handleTemplateSelect_spec_witness :
  exists e,
    e ∈ snd (handleTemplateSelect (Id := nat)
               [("Chest", [mkCatalogExercise "Bench Press" "weight-lifter" "Flat bench"]);
                ("Legs", [mkCatalogExercise "Squat" "run" "King of leg exercises";
                          mkCatalogExercise "Leg Press" "run" "Machine press";
                          mkCatalogExercise "Lunges" "walk" "Unilateral"])]
               (fun k => k) (mkTemplate "legs" "Leg Day" ["Legs"])) /\
    draft_name e = "Leg Press" /\ draft_icon e = "run" /\ draft_category e = "Legs".
Proof.
  destruct (handleTemplateSelect_spec (Id := nat)
              [("Chest", [mkCatalogExercise "Bench Press" "weight-lifter" "Flat bench"]);
               ("Legs", [mkCatalogExercise "Squat" "run" "King of leg exercises";
                         mkCatalogExercise "Leg Press" "run" "Machine press";
                         mkCatalogExercise "Lunges" "walk" "Unilateral"])]
              (fun k => k) (mkTemplate "legs" "Leg Day" ["Legs"]))
    as (_ & _ & _ & Hbuilt & _).
  apply (Hbuilt ltac:(discriminate) "Legs"
           [mkCatalogExercise "Squat" "run" "King of leg exercises";
            mkCatalogExercise "Leg Press" "run" "Machine press";
            mkCatalogExercise "Lunges" "walk" "Unilateral"]
           (mkCatalogExercise "Leg Press" "run" "Machine press")).
  - left.
  - reflexivity.
  - right. left.
Defined.

Lemma catalogMatch_spec js q ex :
  catalogMatch js q ex = true <->
  WorkoutScreen.containsCI js (cat_name ex) q
  \/ WorkoutScreen.containsCI js (cat_description ex) q.
Proof.
  unfold catalogMatch. rewrite orb_true_iff. split.
  - intros [H|H]; [left|right]; by apply WorkoutScreenFacts.includes_lowered_containsCI.
  - intros [H|H]; [left|right]; by apply WorkoutScreenFacts.containsCI_includes.
Qed.

Lemma grouped_membership js (catalog : Catalog) q c exs :
  In (c, exs)
     (List.concat
        (List.map (fun entry =>
                     if (0 <? length (List.filter (catalogMatch js q) (snd entry)))%nat
                     then [(fst entry, List.filter (catalogMatch js q) (snd entry))]
                     else [])
                  catalog))
  <-> exists all, In (c, all) catalog /\ exs = List.filter (catalogMatch js q) all
                  /\ exs <> [].
Proof.
  rewrite in_concat. split.
  - intros (g & Hg & Hin). apply in_map_iff in Hg as ([c' all] & <- & Hcat).
    simpl in Hin.
    destruct (Nat.ltb_spec 0 (length (List.filter (catalogMatch js q) all))); [|done].
    destruct Hin as [[= <- <-]|[]]. exists all. split; [done|]. split; [done|].
    intros E. rewrite E in *. simpl in *. lia.
  - intros (all & Hcat & -> & Hne).
    exists [(c, List.filter (catalogMatch js q) all)]. split; [|by left].
    apply in_map_iff. exists (c, all). split; [|done]. simpl.
    destruct (List.filter (catalogMatch js q) all); [done|reflexivity].
Qed.

(** X25: the exercise picker.  Without a query it lists the exercises of
    the selected category (none when the catalogue has no such category).
    With a query - white space counts, the query is not trimmed - it
    ignores the selected category and searches the whole catalogue: it
    returns groups, none of them empty, every listed exercise contains the
    query in its name or description with case ignored, and every catalogue
    exercise that does so is listed under its category.  This holds
    whatever [toLowerCase] does on the texts at hand. *)
Theorem getFilteredExercises_spec js (catalog : Catalog) (q selected : string) :
  (q = "" ->
   getFilteredExercises js catalog q selected
     = Plain (default [] (categoryExercises catalog selected))) /\
  (q <> "" ->
   exists groups,
     getFilteredExercises js catalog q selected = Grouped groups /\
     (forall c exs, (c, exs) ∈ groups ->
        exs <> [] /\
        forall ex, ex ∈ exs ->
          WorkoutScreen.containsCI js (cat_name ex) q
          \/ WorkoutScreen.containsCI js (cat_description ex) q) /\
     (forall c all ex, (c, all) ∈ catalog -> ex ∈ all ->
        WorkoutScreen.containsCI js (cat_name ex) q
        \/ WorkoutScreen.containsCI js (cat_description ex) q ->
        exists exs, (c, exs) ∈ groups /\ ex ∈ exs)).
Proof.
  unfold getFilteredExercises. split.
  - intros ->. reflexivity.
  - intros Hq. unfold Js.truthy. destruct (String.eqb_spec q ""); [done|]. simpl.
    eexists. split; [reflexivity|]. split.
    + intros c exs Hin. apply list_elem_of_In, grouped_membership in Hin
        as (all & Hcat & -> & Hne).
      split; [done|]. intros ex Hex.
      apply list_elem_of_In, filter_In in Hex as [_ Hm]. by apply catalogMatch_spec.
    + intros c all ex Hcat Hex Hm.
      exists (List.filter (catalogMatch js q) all).
      assert (Hin : ex ∈ List.filter (catalogMatch js q) all).
      { apply list_elem_of_In, filter_In. split; [by apply list_elem_of_In|].
        by apply catalogMatch_spec. }
      split; [|exact Hin].
      apply list_elem_of_In, grouped_membership. exists all.
      split; [by apply list_elem_of_In|]. split; [done|].
      intros E. rewrite E in Hin. by apply elem_of_nil in Hin.
Qed.

Lemma getFilteredExercises_spec_witness :
  exists groups,
    getFilteredExercises Js.asciiBuiltins
      [("Chest", [mkCatalogExercise "Bench Press" "weight-lifter" "Flat bench"]);
       ("Legs", [mkCatalogExercise "Squat" "run" "King of leg exercises";
                 mkCatalogExercise "Lunges" "walk" "Unilateral"])]
      "KING" "Chest" = Grouped groups /\
    exists exs, ("Legs", exs) ∈ groups /\
                mkCatalogExercise "Squat" "run" "King of leg exercises" ∈ exs.
Proof.
  destruct (getFilteredExercises_spec Js.asciiBuiltins
              [("Chest", [mkCatalogExercise "Bench Press" "weight-lifter" "Flat bench"]);
               ("Legs", [mkCatalogExercise "Squat" "run" "King of leg exercises";
                         mkCatalogExercise "Lunges" "walk" "Unilateral"])]
              "KING" "Chest") as (_ & Hsearch).
  destruct (Hsearch ltac:(discriminate)) as (groups & Hg & _ & Hall).
  exists groups. split; [exact Hg|].
  apply (Hall "Legs" [mkCatalogExercise "Squat" "run" "King of leg exercises";
                      mkCatalogExercise "Lunges" "walk" "Unilateral"]).
  - right. left.
  - left.
  - right. by apply WorkoutScreenFacts.includes_lowered_containsCI.
Defined.

End EditorFacts.

Module SaveWorkoutFacts.
Import CreateWorkout Editor SaveWorkout.
Local Open Scope string_scope.

Lemma truthy_nonempty s : Js.truthy s = true <-> s <> "".
Proof. unfold Js.truthy. destruct (String.eqb_spec s ""); split; done. Qed.

Lemma messageOf_nonempty pf t : messageOf pf t <> "".
Proof.
  assert (Hfb : forall m, (if Js.truthy m then m else "Failed to save workout") <> "").
  { intros m. destruct (Js.truthy m) eqn:E; [by apply truthy_nonempty|done]. }
  destruct t as [r|name|].
  - unfold messageOf. destruct (rej_error r) as [m|]; simpl; [|apply Hfb].
    destruct (Js.truthy m) eqn:E; [by apply truthy_nonempty|apply Hfb].
  - unfold messageOf. apply Hfb.
  - unfold messageOf. apply Hfb.
Qed.

(** X26: the name check of [saveWorkout] is stricter than the one of the
    progress bar.  A name that [trim] empties (one made only of white
    space) counts as a filled-in name for [calculateProgress] as long as it
    is not the empty string, yet [saveWorkout] refuses it with "Please
    enter a workout name" before any request is made and without touching
    the saving flag; with a name that [trim] does not empty but no
    exercise it refuses with "Add at least one exercise" in the same way.
    This holds whatever [trim] counts as white space. *)
Theorem saveWorkout_validation {Id} pf (inp : Input Id) st :
  (Js.trim (builtins pf) (in_workoutName inp) = "" ->
   saveWorkout pf inp st
     = mkOutcome (Some "Please enter a workout name") (saving st) false None false) /\
  (in_workoutName inp <> "" ->
   forall `{EqDecision Id} tpl,
     hasName (formOf (in_workoutName inp) tpl (in_exercises inp)) = true) /\
  (Js.trim (builtins pf) (in_workoutName inp) <> "" -> in_exercises inp = [] ->
   saveWorkout pf inp st
     = mkOutcome (Some "Add at least one exercise") (saving st) false None false).
Proof.
  unfold saveWorkout. split; [|split].
  - intros ->. reflexivity.
  - intros Hne ? tpl. unfold hasName, formOf. simpl. by apply truthy_nonempty.
  - intros Hne ->. apply truthy_nonempty in Hne. rewrite Hne. reflexivity.
Qed.

Lemma saveWorkout_validation_witness :
  hasName (formOf (Id := Z) "  " None []) = true /\
  saveWorkout (Id := Z)
    (mkPlatform Js.asciiBuiltins (fun _ => false) (fun _ => 0%float) (fun _ => 0%float)
                "" (GetResolved []) (fun _ => PostResolved))
    (mkInput "  " "" "2024-01-05T00:00:00.000Z" None [])
    (mkOutcome None false false None false)
  = mkOutcome (Some "Please enter a workout name") false false None false.
Proof.
  destruct (saveWorkout_validation (Id := Z)
              (mkPlatform Js.asciiBuiltins (fun _ => false) (fun _ => 0%float)
                          (fun _ => 0%float) "" (GetResolved []) (fun _ => PostResolved))
              (mkInput "  " "" "2024-01-05T00:00:00.000Z" None [])
              (mkOutcome None false false None false)) as (Hblank & Hprog & _).
  split.
  - apply (Hprog ltac:(discriminate) _ None).
  - apply Hblank. reflexivity.
Defined.

Lemma orNumber_reps x :
  PrimFloat.is_nan (orNumber x 10%float) = false /\
  PrimFloat.is_zero (orNumber x 10%float) = false.
Proof.
  unfold orNumber.
  destruct (PrimFloat.is_nan x) eqn:En; simpl; [by split|].
  destruct (PrimFloat.is_zero x) eqn:Ez; simpl; by split.
Qed.

Lemma orNumber_weight x : PrimFloat.is_nan (orNumber x 0%float) = false.
Proof.
  unfold orNumber.
  destruct (PrimFloat.is_nan x) eqn:En; simpl; [done|].
  by destruct (PrimFloat.is_zero x) eqn:Ez.
Qed.

Lemma lastRow_nil name n : ~ lastRow [] name n.
Proof. intros (pre & r & post & E & _). by destruct pre. Qed.

Lemma lastRow_snoc l x name n :
  lastRow (l ++ [x]) name n <->
  (row_name x = name /\ row_exercise_id x = n)
  \/ (row_name x <> name /\ lastRow l name n).
Proof.
  split.
  - intros (pre & r & post & E & Hn & Hi & Hpost).
    destruct post as [|y post _] using rev_ind.
    + apply app_inj_tail in E as [-> ->]. by left.
    + rewrite app_comm_cons, app_assoc in E. apply app_inj_tail in E as [-> ->].
      right. split.
      * apply Hpost. apply elem_of_app. right. left.
      * exists pre, r, post. split; [done|]. split; [done|]. split; [done|].
        intros r' Hr'. apply Hpost. apply elem_of_app. by left.
  - intros [[Hn Hi]|[Hne (pre & r & post & -> & Hn & Hi & Hpost)]].
    + exists l, x, []. split; [done|]. split; [done|]. split; [done|].
      intros r' Hr'. by apply elem_of_nil in Hr'.
    + exists pre, r, (post ++ [x])%list. split; [by rewrite <- app_assoc|].
      split; [done|]. split; [done|].
      intros r' Hr'. apply elem_of_app in Hr' as [H|H]; [by apply Hpost|].
      apply list_elem_of_singleton in H. by subst.
Qed.

Lemma exerciseMap_snoc l x :
  exerciseMap (l ++ [x])
  = if String.eqb (row_name x) "__proto__" then exerciseMap l
    else <[row_name x := row_exercise_id x]> (exerciseMap l).
Proof. unfold exerciseMap. by rewrite fold_left_app. Qed.

(** The own properties of [exerciseMap]: the id of the last row of each
    name, except for the name [__proto__]. *)
Lemma exerciseMap_Some rows name n :
  exerciseMap rows !! name = Some n <-> name <> "__proto__" /\ lastRow rows name n.
Proof.
  revert n. induction rows as [|x l IH] using rev_ind; intros n.
  - split; [done|]. intros [_ H]. by apply lastRow_nil in H.
  - rewrite exerciseMap_snoc, lastRow_snoc.
    destruct (String.eqb_spec (row_name x) "__proto__") as [Hp|Hp].
    + rewrite IH. split.
      * intros [Hne Hl]. split; [done|]. right. split; [congruence|done].
      * intros [Hne [[Hx _]|[_ Hl]]]; [congruence|done].
    + destruct (decide (row_name x = name)) as [<-|Hx].
      * rewrite lookup_insert_eq. split.
        -- intros [= <-]. split; [done|]. by left.
        -- intros [_ [[_ ->]|[? _]]]; done.
      * rewrite lookup_insert_ne by done. rewrite IH. split.
        -- intros [Hne Hl]. split; [done|]. by right.
        -- intros [Hne [[? _]|[_ Hl]]]; done.
Qed.

Lemma exerciseMap_None rows name :
  exerciseMap rows !! name = None <->
  name = "__proto__" \/ forall r, r ∈ rows -> row_name r <> name.
Proof.
  induction rows as [|x l IH] using rev_ind.
  - split; [|done]. intros _. right. intros r Hr. by apply elem_of_nil in Hr.
  - rewrite exerciseMap_snoc.
    destruct (String.eqb_spec (row_name x) "__proto__") as [Hp|Hp].
    + rewrite IH. split.
      * intros [->|Hl]; [by left|].
        destruct (decide (name = "__proto__")) as [->|Hn]; [by left|]. right.
        intros r Hr. apply elem_of_app in Hr as [Hr|Hr]; [by apply Hl|].
        apply list_elem_of_singleton in Hr. subst r. congruence.
      * intros [->|Hl]; [by left|]. right.
        intros r Hr. apply Hl. apply elem_of_app. by left.
    + destruct (decide (row_name x = name)) as [<-|Hx].
      * rewrite lookup_insert_eq. split; [done|].
        intros [?|Hl]; [done|]. exfalso. apply (Hl x); [|done].
        apply elem_of_app. right. left.
      * rewrite lookup_insert_ne by done. rewrite IH. split.
        -- intros [->|Hl]; [by left|]. right.
           intros r Hr. apply elem_of_app in Hr as [Hr|Hr]; [by apply Hl|].
           apply list_elem_of_singleton in Hr. by subst r.
        -- intros [->|Hl]; [by left|]. right.
           intros r Hr. apply Hl. apply elem_of_app. by left.
Qed.

(** When the lookup [exerciseMap[name]] is truthy, and what it gives. *)
Lemma lookupId_Some pf rows name i :
  lookupId pf (exerciseMap rows) name = Some i ->
  (exists n, i = ServerId n /\ n <> 0 /\ name <> "__proto__" /\ lastRow rows name n)
  \/ (i = PrototypeValue name /\ prototypeKey pf name = true /\
      (name = "__proto__" \/ forall r, r ∈ rows -> row_name r <> name)).
Proof.
  unfold lookupId. destruct (exerciseMap rows !! name) as [n|] eqn:E.
  - destruct (Z.eqb_spec n 0); [done|]. intros [= <-]. left.
    apply exerciseMap_Some in E as [? ?]. by exists n.
  - destruct (prototypeKey pf name) eqn:Hk; [|done]. intros [= <-]. right.
    by apply exerciseMap_None in E.
Qed.

(** When the lookup [exerciseMap[name]] is falsy. *)
Lemma lookupId_None pf rows name :
  lookupId pf (exerciseMap rows) name = None <->
  (prototypeKey pf name = false /\
   (name = "__proto__" \/ forall r, r ∈ rows -> row_name r <> name))
  \/ (name <> "__proto__" /\ lastRow rows name 0).
Proof.
  unfold lookupId. destruct (exerciseMap rows !! name) as [n|] eqn:E.
  - apply exerciseMap_Some in E as [Hne Hl]. destruct (Z.eqb_spec n 0) as [->|Hn].
    + split; [|done]. intros _. by right.
    + split; [done|]. intros [[_ Hno]|[_ Hz]].
      * assert (exerciseMap rows !! name = None) as Hnone by by apply exerciseMap_None.
        assert (exerciseMap rows !! name = Some n) as Hsome by by apply exerciseMap_Some.
        congruence.
      * assert (exerciseMap rows !! name = Some n) as H1 by by apply exerciseMap_Some.
        assert (exerciseMap rows !! name = Some 0) as H2 by by apply exerciseMap_Some.
        congruence.
  - apply exerciseMap_None in E. destruct (prototypeKey pf name) eqn:Hk.
    + split; [done|]. intros [[? _]|[Hne Hz]]; [done|].
      assert (exerciseMap rows !! name = Some 0) as H2 by by apply exerciseMap_Some.
      assert (exerciseMap rows !! name = None) as H1 by by apply exerciseMap_None.
      congruence.
    + split; [|done]. intros _. by left.
Qed.

Lemma toApiExercise_inr {Id} pf map (e : Draft Id) row :
  toApiExercise pf map e = inr row ->
  lookupId pf map (draft_name e) = Some (api_exercise_id row) /\
  api_sets row = length (draft_sets e) /\
  (1 <= api_sets row)%nat /\
  PrimFloat.is_nan (api_reps row) = false /\
  PrimFloat.is_zero (api_reps row) = false /\
  PrimFloat.is_nan (api_weight row) = false.
Proof.
  unfold toApiExercise.
  destruct (lookupId pf map (draft_name e)) as [i|]; [|done].
  destruct (draft_sets e) as [|s0 ss] eqn:Es.
  { simpl. done. }
  destruct (match List.find _ (s0 :: ss) with Some s => Some s | None => head (s0 :: ss) end)
    as [v|]; [|done].
  intros [= <-]. simpl.
  destruct (orNumber_reps (parseInt10 pf (reps v))) as [? ?].
  pose proof (orNumber_weight (parseFloat pf (weight v))).
  repeat split; try done. lia.
Qed.

Lemma toApiExercises_inr {Id} pf map (l : list (Draft Id)) rows :
  toApiExercises pf map l = inr rows ->
  Forall2 (fun e row => toApiExercise pf map e = inr row) l rows.
Proof.
  revert rows. induction l as [|e l IH]; intros rows; simpl.
  - intros [= <-]. constructor.
  - destruct (toApiExercise pf map e) as [t|row] eqn:E; [done|].
    destruct (toApiExercises pf map l) as [t|rows'] eqn:E'; [done|].
    intros [= <-]. constructor; [done|by apply IH].
Qed.

(** X27: whenever [saveWorkout] hands a body to [api.post], the name is
    not blank, the catalogue was fetched, the user is known and sent by its
    id, and the body lists one row per exercise, in order.  Each row
    carries the number of sets of its exercise (at least one), a reps value
    that is neither [NaN] nor zero, a weight that is not [NaN], and as
    exercise id what the plain object [exerciseMap] holds under the name of
    the exercise: the id of the last catalogue row with that name, which is
    then not zero - or, for a name that is a property of [Object.prototype]
    and that no catalogue row has (or for [__proto__]), the inherited
    property, which is not an id of the catalogue at all. *)
Theorem saveWorkout_posted_body {Id} pf (inp : Input Id) st data :
  posted (saveWorkout pf inp st) = Some data ->
  Js.trim (builtins pf) (in_workoutName inp) <> "" /\
  fetched (saveWorkout pf inp st) = true /\
  wd_workout_name data = in_workoutName inp /\
  (exists u, in_user inp = Some u /\ wd_user_id data = Auth.id u) /\
  in_exercises inp <> [] /\
  exists allExercises,
    getExercises pf = GetResolved allExercises /\
    Forall2
      (fun e row =>
         api_sets row = length (draft_sets e) /\
         (1 <= api_sets row)%nat /\
         PrimFloat.is_nan (api_reps row) = false /\
         PrimFloat.is_zero (api_reps row) = false /\
         PrimFloat.is_nan (api_weight row) = false /\
         ((exists n, api_exercise_id row = ServerId n /\ n <> 0 /\
                     draft_name e <> "__proto__" /\
                     lastRow allExercises (draft_name e) n)
          \/ (api_exercise_id row = PrototypeValue (draft_name e) /\
              prototypeKey pf (draft_name e) = true /\
              (draft_name e = "__proto__"
               \/ forall r, r ∈ allExercises -> row_name r <> draft_name e))))
      (in_exercises inp) (wd_exercises data).
Proof.
  unfold saveWorkout, failed.
  destruct (Js.truthy (Js.trim (builtins pf) (in_workoutName inp))) eqn:Hname;
    cbn [negb]; [|done].
  apply truthy_nonempty in Hname.
  destruct (Nat.eqb_spec (length (in_exercises inp)) 0) as [|Hlen]; [done|].
  assert (Hne : in_exercises inp <> []) by (intros E; by rewrite E in Hlen).
  destruct (getExercises pf) as [rows|r]; [|done].
  destruct (toApiExercises pf (exerciseMap rows) (in_exercises inp)) as [t|api] eqn:Hapi;
    [done|].
  apply toApiExercises_inr in Hapi.
  assert (Hrows : Forall2
      (fun e row =>
         api_sets row = length (draft_sets e) /\
         (1 <= api_sets row)%nat /\
         PrimFloat.is_nan (api_reps row) = false /\
         PrimFloat.is_zero (api_reps row) = false /\
         PrimFloat.is_nan (api_weight row) = false /\
         ((exists n, api_exercise_id row = ServerId n /\ n <> 0 /\
                     draft_name e <> "__proto__" /\
                     lastRow rows (draft_name e) n)
          \/ (api_exercise_id row = PrototypeValue (draft_name e) /\
              prototypeKey pf (draft_name e) = true /\
              (draft_name e = "__proto__"
               \/ forall r, r ∈ rows -> row_name r <> draft_name e))))
      (in_exercises inp) api).
  { eapply Forall2_impl; [exact Hapi|]. intros e row Hrow.
    apply toApiExercise_inr in Hrow as (Hid & ? & ? & ? & ? & ?).
    do 5 (split; [done|]). by apply lookupId_Some in Hid. }
  destruct (in_user inp) as [u|]; [|done].
  destruct (postWorkout pf _); simpl; intros [= <-]; simpl;
    (split; [done|]); (split; [done|]); (split; [done|]);
    (split; [by exists u|]); (split; [done|]); by exists rows.
Qed.

Lemma saveWorkout_posted_body_witness :
  exists allExercises,
    GetResolved [mkExerciseRow "Squat" 2; mkExerciseRow "Plank" 4;
                 mkExerciseRow "Squat" 3] = GetResolved allExercises /\
    Forall2
      (fun e row =>
         api_sets row = length (draft_sets e) /\
         (1 <= api_sets row)%nat /\
         PrimFloat.is_nan (api_reps row) = false /\
         PrimFloat.is_zero (api_reps row) = false /\
         PrimFloat.is_nan (api_weight row) = false /\
         ((exists n, api_exercise_id row = ServerId n /\ n <> 0 /\
                     draft_name e <> "__proto__" /\
                     lastRow allExercises (draft_name e) n)
          \/ (api_exercise_id row = PrototypeValue (draft_name e) /\
              String.eqb (draft_name e) "constructor" = true /\
              (draft_name e = "__proto__"
               \/ forall r, r ∈ allExercises -> row_name r <> draft_name e))))
      [mkDraft 7%Z "Squat" "run" "Legs" [mkSetEntry "" "" false];
       mkDraft 8%Z "constructor" "run" "Legs" [mkSetEntry "60" "5" false]]
      [mkApiExercise (ServerId 3) 1 10%float 0%float;
       mkApiExercise (PrototypeValue "constructor") 1 5%float 60%float].
Proof.
  apply (saveWorkout_posted_body (Id := Z)
           (mkPlatform Js.asciiBuiltins (fun k => String.eqb k "constructor")
                       (fun r => if String.eqb r "5" then 5%float else PrimFloat.nan)
                       (fun w => if String.eqb w "60" then 60%float else PrimFloat.nan)
                       "boom"
                       (GetResolved [mkExerciseRow "Squat" 2; mkExerciseRow "Plank" 4;
                                     mkExerciseRow "Squat" 3])
                       (fun _ => PostResolved))
           (mkInput "Leg day" "" "2024-01-05T00:00:00.000Z"
                    (Some (Auth.mkUser 5 "ann" "ann@example.org"))
                    [mkDraft 7%Z "Squat" "run" "Legs" [mkSetEntry "" "" false];
                     mkDraft 8%Z "constructor" "run" "Legs" [mkSetEntry "60" "5" false]])
           (mkOutcome None false false None false)
           (mkWorkoutData 5 "Leg day" "2024-01-05T00:00:00.000Z" ""
                          [mkApiExercise (ServerId 3) 1 10%float 0%float;
                           mkApiExercise (PrototypeValue "constructor") 1 5%float
                                         60%float])).
  vm_compute. reflexivity.
Defined.

Lemma toApiExercises_blocked {Id} pf map (l : list (Draft Id)) e :
  e ∈ l ->
  (exists t, toApiExercise pf map e = inl t) ->
  exists t, toApiExercises pf map l = inl t.
Proof.
  intros He [t Ht]. induction l as [|x l IH]; [by apply elem_of_nil in He|].
  simpl. destruct (toApiExercise pf map x) as [t'|row] eqn:E; [by exists t'|].
  apply elem_of_cons in He as [->|He]; [congruence|].
  destruct (IH He) as [t'' ->]. by exists t''.
Qed.

(** X28: one bad exercise blocks the whole save.  Nothing is posted, the
    screen stays open, the saving flag ends false and a non-empty error
    text is shown as soon as one exercise of the form has had all its sets
    removed, or has a name whose last catalogue row carries the id 0, or
    has a name that no catalogue row carries and that is not a property of
    [Object.prototype] either.  (A name such as "constructor" that the
    catalogue lacks does not block the save: the lookup in the plain object
    finds the inherited property.)  When the offender is the first exercise
    and it is its name that fails, the text names it. *)
Theorem saveWorkout_blocked {Id} pf (inp : Input Id) st allExercises e :
  Js.trim (builtins pf) (in_workoutName inp) <> "" ->
  getExercises pf = GetResolved allExercises ->
  e ∈ in_exercises inp ->
  ((prototypeKey pf (draft_name e) = false /\
    forall r, r ∈ allExercises -> row_name r <> draft_name e)
   \/ (draft_name e <> "__proto__" /\ lastRow allExercises (draft_name e) 0)
   \/ draft_sets e = []) ->
  posted (saveWorkout pf inp st) = None /\
  wentBack (saveWorkout pf inp st) = false /\
  saving (saveWorkout pf inp st) = false /\
  (exists m, errMsg (saveWorkout pf inp st) = Some m /\ m <> "") /\
  (forall rest, in_exercises inp = e :: rest ->
     draft_sets e <> [] ->
     errMsg (saveWorkout pf inp st)
       = Some ("Exercise " ++ quote ++ draft_name e ++ quote ++ " not found in database")).
Proof.
  intros Hname Hget He Hbad.
  assert (Hcases : lookupId pf (exerciseMap allExercises) (draft_name e) = None
                   \/ draft_sets e = []).
  { destruct Hbad as [[Hk Hno]|[[Hne Hz]|Hs]]; [left|left|by right].
    - apply lookupId_None. left. split; [done|by right].
    - apply lookupId_None. by right. }
  assert (Hthrow : exists t, toApiExercise pf (exerciseMap allExercises) e = inl t).
  { unfold toApiExercise. destruct Hcases as [-> | Hs]; [by eexists|].
    destruct (lookupId _ _ _); [|by eexists]. rewrite Hs. simpl. by eexists. }
  destruct (toApiExercises_blocked pf _ _ e He Hthrow) as [t Ht].
  unfold saveWorkout, failed. apply truthy_nonempty in Hname. rewrite Hname. cbn [negb].
  destruct (Nat.eqb_spec (length (in_exercises inp)) 0) as [Hlen|Hlen].
  { destruct (in_exercises inp); [by apply elem_of_nil in He|done]. }
  rewrite Hget, Ht. simpl.
  split; [done|]. split; [done|]. split; [done|]. split.
  - eexists. split; [reflexivity|apply messageOf_nonempty].
  - intros rest Hrest Hsets. destruct Hcases as [Hnone|?]; [|done].
    rewrite Hrest in Ht. simpl in Ht.
    unfold toApiExercise in Ht. rewrite Hnone in Ht. injection Ht as <-. reflexivity.
Qed.

Lemma saveWorkout_blocked_witness :
  posted (saveWorkout (Id := Z)
            (mkPlatform Js.asciiBuiltins (fun k => String.eqb k "constructor")
                        (fun _ => 0%float) (fun _ => 0%float) "boom"
                        (GetResolved [mkExerciseRow "Squat" 3]) (fun _ => PostResolved))
            (mkInput "Leg day" "" "2024-01-05T00:00:00.000Z"
                     (Some (Auth.mkUser 5 "ann" "ann@example.org"))
                     [mkDraft 7%Z "Deadlift" "run" "Back" [mkSetEntry "100" "5" true]])
            (mkOutcome None false false None false)) = None /\
  errMsg (saveWorkout (Id := Z)
            (mkPlatform Js.asciiBuiltins (fun k => String.eqb k "constructor")
                        (fun _ => 0%float) (fun _ => 0%float) "boom"
                        (GetResolved [mkExerciseRow "Squat" 3]) (fun _ => PostResolved))
            (mkInput "Leg day" "" "2024-01-05T00:00:00.000Z"
                     (Some (Auth.mkUser 5 "ann" "ann@example.org"))
                     [mkDraft 7%Z "Deadlift" "run" "Back" [mkSetEntry "100" "5" true]])
            (mkOutcome None false false None false))
  = Some ("Exercise " ++ quote ++ "Deadlift" ++ quote ++ " not found in database").
Proof.
  destruct (saveWorkout_blocked (Id := Z)
              (mkPlatform Js.asciiBuiltins (fun k => String.eqb k "constructor")
                          (fun _ => 0%float) (fun _ => 0%float) "boom"
                          (GetResolved [mkExerciseRow "Squat" 3]) (fun _ => PostResolved))
              (mkInput "Leg day" "" "2024-01-05T00:00:00.000Z"
                       (Some (Auth.mkUser 5 "ann" "ann@example.org"))
                       [mkDraft 7%Z "Deadlift" "run" "Back" [mkSetEntry "100" "5" true]])
              (mkOutcome None false false None false)
              [mkExerciseRow "Squat" 3]
              (mkDraft 7%Z "Deadlift" "run" "Back" [mkSetEntry "100" "5" true]))
    as (Hposted & _ & _ & _ & Hmsg).
  - vm_compute. discriminate.
  - reflexivity.
  - left.
  - left. split; [reflexivity|].
    intros r Hr. apply list_elem_of_singleton in Hr. subst r. discriminate.
  - split; [exact Hposted|]. apply (Hmsg []); [reflexivity|discriminate].
Defined.

End SaveWorkoutFacts.

Module ProfileFacts.
Import Profile.

(** X29: for well-formed calendar dates [calculateAge] returns the number
    of birthdays reached so far: the anniversary with that number is not
    later than today and the next one is still to come.  A date of birth
    after today therefore gives a negative age, and a missing date of
    birth gives [null]. *)
Theorem calculateAge_full_years today dob :
  wellFormed today -> wellFormed dob ->
  calculateAge today None = None /\
  exists age,
    calculateAge today (Some dob) = Some age /\
    ~ earlier today (anniversary dob age) /\
    earlier today (anniversary dob (age + 1)).
Proof.
  intros (Hm & Hd) (Hm' & Hd'). split; [done|].
  unfold calculateAge, earlier, anniversary. simpl.
  destruct (Z.ltb_spec (month today - month dob) 0);
    destruct (Z.eqb_spec (month today - month dob) 0);
    destruct (Z.ltb_spec (day today) (day dob)); simpl;
    eexists; (split; [reflexivity|]); split; lia.
Qed.

Lemma calculateAge_full_years_witness :
  exists age,
    calculateAge (mkDate 2024 2 5) (Some (mkDate 1990 2 6)) = Some age /\
    ~ earlier (mkDate 2024 2 5) (anniversary (mkDate 1990 2 6) age) /\
    earlier (mkDate 2024 2 5) (anniversary (mkDate 1990 2 6) (age + 1)).
Proof.
  apply (calculateAge_full_years (mkDate 2024 2 5) (mkDate 1990 2 6));
    unfold wellFormed; simpl; lia.
Defined.

End ProfileFacts.

Module HomeLoadFacts.
Import Auth HomeLoad.

Lemma apiGet_run {A} env u (answer : Answer A) sc :
  apiGet env u answer sc
  = match fate env (GetItem "auth_token") with
    | Fails _ => (Thrown StorageError, sc)
    | Completes =>
        match answer with
        | Answered d => (Returned d, sc)
        | Refused r => (Thrown (AxiosError r), sc)
        end
    end.
Proof.
  destruct sc as [w c red].
  unfold apiGet, bindS, onSession, request, requestInterceptor, getItem, bind, ret. simpl.
  destruct (fate env (GetItem "auth_token")); [|done].
  destruct (Js.truthyOpt (storage w !! "auth_token")); by destruct answer.
Qed.

Ltac unfoldS := unfold loadData, tryCatchFinallyS, tryCatchS, bindS, retS,
  throwS, setErrorH, setLoadingH, setRefreshingH, setWorkoutsH, setRankingsH,
  setStreakH, setCells; simpl.

(** X30: [loadData] absorbs every failure of its two requests.  Whatever
    the server answers and whatever the storage read of the interceptor
    does, it returns normally with the error cell empty and both busy
    flags false, the session is left as it was and the screen is never
    sent to the login page: the handler that would log out on a 401 is
    never reached.  When the workouts request fails, the workout list is
    emptied while the streak keeps its previous value; when it succeeds,
    the streak is [calcStreak] of the list just received. *)
Theorem loadData_outcome env server now sc :
  fst (loadData env server now sc) = Returned tt /\
  session (snd (loadData env server now sc)) = session sc /\
  redirected (snd (loadData env server now sc)) = redirected sc /\
  h_error (cells (snd (loadData env server now sc))) = None /\
  h_loading (cells (snd (loadData env server now sc))) = false /\
  h_refreshing (cells (snd (loadData env server now sc))) = false /\
  (forall body,
     fate env (GetItem "auth_token") = Completes ->
     workoutsPage server = Answered (Some body) ->
     h_workouts (cells (snd (loadData env server now sc))) = default [] body /\
     h_streak (cells (snd (loadData env server now sc)))
       = Home.calcStreak now (default [] body)) /\
  ((exists done, fate env (GetItem "auth_token") = Fails done)
   \/ (exists r, workoutsPage server = Refused r)
   \/ workoutsPage server = Answered None ->
   h_workouts (cells (snd (loadData env server now sc))) = [] /\
   h_streak (cells (snd (loadData env server now sc))) = h_streak (cells sc)).
Proof.
  destruct sc as [w c red]. unfoldS. rewrite apiGet_run.
  destruct (fate env (GetItem "auth_token")) as [|done'] eqn:Hf; simpl.
  - destruct (workoutsPage server) as [[body|]|r] eqn:Hw; simpl;
      (destruct (user w) as [u|]; simpl;
       [rewrite apiGet_run, Hf; destruct (rankingsOf server (id u)) as [rd|rr]; simpl|]);
      (split; [done|]); (split; [done|]); (split; [done|]); (split; [done|]);
      (split; [done|]); (split; [done|]); split;
      try (by intros body' _ [= <-]);
      try (by intros ? ? [=]);
      try (by intros _);
      try (by intros [[d [=]]|[[r' [=]]|[=]]]).
  - destruct (user w) as [u|]; simpl;
      [rewrite apiGet_run, Hf; simpl|];
      (split; [done|]); (split; [done|]); (split; [done|]); (split; [done|]);
      (split; [done|]); (split; [done|]); split;
      try (by intros ? [=]); by intros _.
Qed.

Lemma loadData_outcome_witness :
  h_workouts (cells (snd (loadData (sampleEnv invalidCredentials Completes)
                            (mkServer (Refused (Some (mkResponse 401 None)))
                                      (fun _ => Answered None))
                            Home.sample_now
                            (mkScreen sampleSession
                               (mkCells false true [Home.onDay 1 10 5] [] 1 None) false))))
    = [] /\
  h_streak (cells (snd (loadData (sampleEnv invalidCredentials Completes)
                          (mkServer (Refused (Some (mkResponse 401 None)))
                                    (fun _ => Answered None))
                          Home.sample_now
                          (mkScreen sampleSession
                             (mkCells false true [Home.onDay 1 10 5] [] 1 None) false))))
    = 1.
Proof.
  destruct (loadData_outcome (sampleEnv invalidCredentials Completes)
              (mkServer (Refused (Some (mkResponse 401 None))) (fun _ => Answered None))
              Home.sample_now
              (mkScreen sampleSession (mkCells false true [Home.onDay 1 10 5] [] 1 None)
                        false)) as (_ & _ & _ & _ & _ & _ & _ & H).
  apply H. right. left. by eexists.
Defined.

End HomeLoadFacts.
